(** * SentryData: lexer and stack machine of [sentrydata.py]

    A shallow embedding of [SentryDataCompiler] (lexical analysis and the
    stack virtual machine) and the properties of its lexer and evaluator.

    Modelling conventions.
    - Source text is ASCII: a Python [str] is a Rocq [string] whose
      characters are code points below 128.  The classification methods
      ([isspace], [isdigit], [isalpha], [isalnum], [upper]) are the
      restrictions of Python's to that range.
    - A Python [float] is a primitive binary64 float, as in CPython; the
      interpreter is a 64-bit CPython, whose index-sized integers (lengths
      and repetition counts) run from [- 2^63] to [2^63 - 1].
    - The objects that can sit on the stack are [float], [str], [bool] and
      [int] ([int] arises from arithmetic on [bool]); memory is unbounded and
      the interpreter's limit on the length of printed integers is off.
    - A method of the compiler object is a function from the object's state
      to an outcome: a value and the new state, or an exception and the state
      the object was left in when it was raised.
    - An f-string is kept as its literal pieces and interpolated values. *)

From Stdlib Require Import String Ascii List ZArith Lia Bool Arith.
From Stdlib Require Import Floats.PrimFloat Floats.FloatOps Floats.SpecFloat.
From Stdlib Require Import Floats.FloatAxioms.
From Stdlib Require Import Sorting.Sorted.
From Stdlib Require Import Numbers.Cyclic.Int63.Uint63.
Import ListNotations.

Local Open Scope string_scope.
Local Open Scope list_scope.

(* ================================================================= *)
(** ** Python values and exceptions *)

Inductive pyval : Type :=
| VFloat (f : float)
| VStr (s : string)
| VBool (b : bool)
| VInt (z : Z).

Inductive exn : Type :=
| ValueError
| TypeError
| ZeroDivisionError
| OverflowError
| AttributeError
| IndexError.

(** Result of evaluating a Python expression that may raise. *)
Inductive result (A : Type) : Type :=
| Ok (a : A)
| Err (e : exn).
Arguments Ok {A} a.
Arguments Err {A} e.

(* ----------------------------------------------------------------- *)
(** *** Characters and strings *)

Definition dquote : ascii := "034"%char.

Definition code (c : ascii) : nat := nat_of_ascii c.

(** [str.isspace] on ASCII: TAB, LF, VT, FF, CR, FS, GS, RS, US, space. *)
Definition isspace (c : ascii) : bool :=
  let n := code c in
  ((9 <=? n) && (n <=? 13) || (28 <=? n) && (n <=? 32))%nat.

Definition isdigit (c : ascii) : bool :=
  let n := code c in ((48 <=? n) && (n <=? 57))%nat.

Definition isupper (c : ascii) : bool :=
  let n := code c in ((65 <=? n) && (n <=? 90))%nat.

Definition islower (c : ascii) : bool :=
  let n := code c in ((97 <=? n) && (n <=? 122))%nat.

Definition isalpha (c : ascii) : bool := isupper c || islower c.

Definition isalnum (c : ascii) : bool := isalpha c || isdigit c.

Definition upper_char (c : ascii) : ascii :=
  if islower c then ascii_of_nat (code c - 32) else c.

(** [str.upper] *)
Fixpoint upper (s : string) : string :=
  match s with
  | EmptyString => EmptyString
  | String c r => String (upper_char c) (upper r)
  end.

(** [s.startswith(p)] *)
Fixpoint startswith (p s : string) : bool :=
  match p, s with
  | EmptyString, _ => true
  | String a p', String b s' => Ascii.eqb a b && startswith p' s'
  | String _ _, EmptyString => false
  end.

Fixpoint lstrip (s : string) : string :=
  match s with
  | String c r => if isspace c then lstrip r else s
  | EmptyString => EmptyString
  end.

(** Drops trailing whitespace: a character is kept unless it and everything
    after it is whitespace. *)
Fixpoint rstrip (s : string) : string :=
  match s with
  | EmptyString => EmptyString
  | String c r =>
      match rstrip r with
      | EmptyString => if isspace c then EmptyString else String c EmptyString
      | r' => String c r'
      end
  end.

(** [str.strip()] *)
Definition strip (s : string) : string := rstrip (lstrip s).

(** Line boundaries of [str.splitlines] on ASCII: LF, VT, FF, CR, FS, GS, RS
    (and CR LF taken as one). *)
Definition islinebreak (c : ascii) : bool :=
  let n := code c in
  ((10 <=? n) && (n <=? 13) || (28 <=? n) && (n <=? 30))%nat.

Definition is_cr (c : ascii) : bool := (code c =? 13)%nat.
Definition is_lf (c : ascii) : bool := (code c =? 10)%nat.

Fixpoint splitlines_from (cur : string) (s : string) : list string :=
  match s with
  | EmptyString =>
      match cur with EmptyString => [] | _ => [cur] end
  | String c r =>
      if is_cr c then
        match r with
        | String c' r' =>
            if is_lf c' then cur :: splitlines_from EmptyString r'
            else cur :: splitlines_from EmptyString r
        | EmptyString => cur :: splitlines_from EmptyString r
        end
      else if islinebreak c then cur :: splitlines_from EmptyString r
      else splitlines_from (cur ++ String c EmptyString) r
  end.

(** [str.splitlines()] *)
Definition splitlines (s : string) : list string :=
  splitlines_from EmptyString s.

(** The longest prefix of [s] whose characters satisfy [p], and the rest:
    the inner [while i < len(line) and p(line[i])] loops of the lexer. *)
Fixpoint span (p : ascii -> bool) (s : string) : string * string :=
  match s with
  | EmptyString => (EmptyString, EmptyString)
  | String c r =>
      if p c then let '(a, b) := span p r in (String c a, b)
      else (EmptyString, s)
  end.

(** [s * n] *)
Fixpoint str_repeat (s : string) (n : nat) : string :=
  match n with
  | O => EmptyString
  | S k => s ++ str_repeat s k
  end.

(* ----------------------------------------------------------------- *)
(** *** Numbers *)

Local Open Scope Z_scope.

(** The binary64 nearest to [n / d] (ties to even), for [0 <= n], [0 < d];
    [infinity] when the quotient is beyond the finite range. *)
Definition round_ratio (n d : Z) : float :=
  if n =? 0 then 0%float else
  let scaled (e : Z) : Z * Z :=
    if 0 <=? e then (n, d * 2 ^ e) else (n * 2 ^ (- e), d) in
  let e0 := Z.log2 n - Z.log2 d - 52 in
  let e1 := let '(p, q) := scaled e0 in
            if p / q <? 2 ^ 52 then e0 - 1 else e0 in
  let e := Z.max e1 (-1074) in
  let '(p, q) := scaled e in
  let m := p / q in
  let r := p mod q in
  let m' := if 2 * r <? q then m
            else if q <? 2 * r then m + 1
            else if Z.even m then m else m + 1 in
  Z.ldexp (PrimFloat.of_uint63 (Uint63.of_Z m')) e.

Definition is_infinite (f : float) : bool :=
  PrimFloat.eqb (PrimFloat.abs f) PrimFloat.infinity.

(** [float(z)] for an [int] [z]. *)
Definition float_of_int (z : Z) : result float :=
  let f := round_ratio (Z.abs z) 1 in
  if is_infinite f then Err OverflowError
  else Ok (if z <? 0 then PrimFloat.opp f else f).

(** [x / y] for [int]s with [y <> 0]. *)
Definition int_truediv (x y : Z) : result float :=
  let f := round_ratio (Z.abs x) (Z.abs y) in
  if is_infinite f then Err OverflowError
  else Ok (if xorb (x <? 0) (y <? 0) then PrimFloat.opp f else f).

Definition digit_value (c : ascii) : Z := Z.of_nat (code c - 48).

Fixpoint digits_value (acc : Z) (s : string) : Z :=
  match s with
  | EmptyString => acc
  | String c r => digits_value (10 * acc + digit_value c) r
  end.

Definition all_digits (s : string) : bool :=
  forallb isdigit (list_ascii_of_string s).

Definition is_dot (c : ascii) : bool := Ascii.eqb c "."%char.

(** [float(s)] for the text the lexer collects: digits and ['.'] characters.
    The text is a float literal when it is [digits], [digits.], [.digits] or
    [digits.digits]; anything else raises [ValueError]. *)
Definition float_of_str (s : string) : result float :=
  let '(ip, rest) := span isdigit s in
  let fp := match rest with
            | String c r => if is_dot c then Some r else None
            | EmptyString => Some EmptyString
            end in
  match fp with
  | Some fp =>
      if all_digits fp
         && negb ((String.length ip =? 0)%nat && (String.length fp =? 0)%nat)
      then Ok (round_ratio (digits_value 0 (ip ++ fp))
                           (10 ^ Z.of_nat (String.length fp)))
      else Err ValueError
  | None => Err ValueError
  end.

Inductive num : Type :=
| NInt (z : Z)
| NFloat (f : float).

(** [bool] is a subclass of [int]: [True] is 1 and [False] is 0. *)
Definition as_num (v : pyval) : option num :=
  match v with
  | VFloat f => Some (NFloat f)
  | VInt z => Some (NInt z)
  | VBool b => Some (NInt (Z.b2z b))
  | VStr _ => None
  end.

Definition to_float (n : num) : result float :=
  match n with
  | NFloat f => Ok f
  | NInt z => float_of_int z
  end.

(** Exact comparison of an [int] with a [float]; [None] for NaN. *)
Definition compare_int_float (z : Z) (f : float) : option comparison :=
  match Prim2SF f with
  | S754_nan => None
  | S754_infinity s => Some (if s then Gt else Lt)
  | S754_zero _ => Some (z ?= 0)
  | S754_finite s m e =>
      let v := if s then Z.neg m else Z.pos m in
      if 0 <=? e then Some (z ?= v * 2 ^ e)
      else Some (z * 2 ^ (- e) ?= v)
  end.

Definition compare_float (x y : float) : option comparison :=
  match PrimFloat.compare x y with
  | FEq => Some Eq
  | FLt => Some Lt
  | FGt => Some Gt
  | FNotComparable => None
  end.

Definition compare_num (x y : num) : option comparison :=
  match x, y with
  | NInt a, NInt b => Some (a ?= b)
  | NFloat a, NFloat b => compare_float a b
  | NInt a, NFloat b => compare_int_float a b
  | NFloat a, NInt b => option_map CompOpp (compare_int_float b a)
  end.

(** Arithmetic shared by [+], [-] and [*] on numbers: [int] with [int] stays
    [int], anything with a [float] is computed in floats. *)
Definition arith (iop : Z -> Z -> Z) (fop : float -> float -> float)
    (x y : num) : result pyval :=
  match x, y with
  | NInt a, NInt b => Ok (VInt (iop a b))
  | _, _ =>
      match to_float x with
      | Err e => Err e
      | Ok fx =>
          match to_float y with
          | Err e => Err e
          | Ok fy => Ok (VFloat (fop fx fy))
          end
      end
  end.

(** The largest index-sized integer, [sys.maxsize]. *)
Definition ssize_max : Z := 2 ^ 63 - 1.

Definition str_len (s : string) : Z := Z.of_nat (String.length s).

(** [a + b] on [str]: the length of the result must be index-sized. *)
Definition py_concat (a b : string) : result pyval :=
  if ssize_max - str_len b <? str_len a then Err OverflowError
  else Ok (VStr (a ++ b)).

(** [s * n] and [n * s] for a [str] and an [int]: the count must be
    index-sized, a count below 1 gives the empty string, and the length of
    the result must be index-sized. *)
Definition py_repeat (s : string) (n : Z) : result pyval :=
  if (n <? - 2 ^ 63) || (ssize_max <? n) then Err OverflowError
  else if n <? 1 then Ok (VStr EmptyString)
  else if ssize_max / n <? str_len s then Err OverflowError
  else Ok (VStr (str_repeat s (Z.to_nat n))).

(** [x + y] *)
Definition py_add (x y : pyval) : result pyval :=
  match x, y with
  | VStr a, VStr b => py_concat a b
  | _, _ =>
      match as_num x, as_num y with
      | Some a, Some b => arith Z.add PrimFloat.add a b
      | _, _ => Err TypeError
      end
  end.

(** [x - y] *)
Definition py_sub (x y : pyval) : result pyval :=
  match as_num x, as_num y with
  | Some a, Some b => arith Z.sub PrimFloat.sub a b
  | _, _ => Err TypeError
  end.

(** [x * y] *)
Definition py_mul (x y : pyval) : result pyval :=
  match x, y with
  | VStr s, VInt n | VInt n, VStr s => py_repeat s n
  | VStr s, VBool b | VBool b, VStr s => py_repeat s (Z.b2z b)
  | _, _ =>
      match as_num x, as_num y with
      | Some a, Some b => arith Z.mul PrimFloat.mul a b
      | _, _ => Err TypeError
      end
  end.

(** [x / y] *)
Definition py_truediv (x y : pyval) : result pyval :=
  match as_num x, as_num y with
  | Some (NInt a), Some (NInt b) =>
      if b =? 0 then Err ZeroDivisionError
      else match int_truediv a b with
           | Ok f => Ok (VFloat f)
           | Err e => Err e
           end
  | Some a, Some b =>
      match to_float a with
      | Err e => Err e
      | Ok fa =>
          match to_float b with
          | Err e => Err e
          | Ok fb =>
              if PrimFloat.eqb fb 0%float then Err ZeroDivisionError
              else Ok (VFloat (PrimFloat.div fa fb))
          end
      end
  | _, _ => Err TypeError
  end.

(** [x == y] *)
Definition py_eq (x y : pyval) : bool :=
  match x, y with
  | VStr a, VStr b => String.eqb a b
  | _, _ =>
      match as_num x, as_num y with
      | Some a, Some b =>
          match compare_num a b with Some Eq => true | _ => false end
      | _, _ => false
      end
  end.

(** [x != y] *)
Definition py_ne (x y : pyval) : bool := negb (py_eq x y).

(** An ordering comparison: [holds] says which outcomes of the three-way
    comparison make it true. *)
Definition py_order (holds : comparison -> bool) (x y : pyval)
    : result pyval :=
  match x, y with
  | VStr a, VStr b => Ok (VBool (holds (String.compare a b)))
  | _, _ =>
      match as_num x, as_num y with
      | Some a, Some b =>
          match compare_num a b with
          | Some c => Ok (VBool (holds c))
          | None => Ok (VBool false)
          end
      | _, _ => Err TypeError
      end
  end.

Definition py_lt := py_order (fun c => match c with Lt => true | _ => false end).
Definition py_gt := py_order (fun c => match c with Gt => true | _ => false end).
Definition py_le := py_order (fun c => match c with Gt => false | _ => true end).
Definition py_ge := py_order (fun c => match c with Lt => false | _ => true end).

(** [bool(v)]: zero, the empty string and [False] are false. *)
Definition py_bool (v : pyval) : bool :=
  match v with
  | VFloat f => negb (PrimFloat.eqb f 0%float)
  | VStr s => negb (String.eqb s EmptyString)
  | VBool b => b
  | VInt z => negb (z =? 0)
  end.

Local Close Scope Z_scope.

(* ================================================================= *)
(** ** Data structures *)

(** Token produced by the lexical analyser. *)
Record Token : Type := mkToken {
  token_type : string;
  token_value : pyval;
  token_line : nat;
  token_column : nat
}.

(** Entry of the symbol table. *)
Record SymbolTableEntry : Type := mkSymbolTableEntry {
  entry_name : string;
  entry_type : string;
  entry_value : pyval;
  entry_line : nat
}.

(** Compiler error; [error_type] is one of ['LÉXICO'], ['SINTÁCTICO'],
    ['SEMÁNTICO'], ['EJECUCIÓN']. *)
Record CompilerError : Type := mkCompilerError {
  error_line : nat;
  error_type : string;
  description : string
}.

(** An f-string before rendering. *)
Inductive piece : Type :=
| Lit (s : string)
| Val (v : pyval).

Definition fstring : Type := list piece.

(** Entry of the execution log. *)
Record LogEntry : Type := mkLogEntry {
  step : nat;
  token : Token;
  action : fstring;
  stack_state : list pyval
}.

(** The fields of a [SentryDataCompiler] object.  Lists are in Python
    order: [append] adds at the end and [pop] removes the last element. *)
Record SentryDataCompiler : Type := mkCompiler {
  tokens : list Token;
  symbol_table : list (string * SymbolTableEntry);
  errors : list CompilerError;
  stack : list pyval;
  current_line : nat
}.

(** [SentryDataCompiler()] *)
Definition init : SentryDataCompiler := mkCompiler [] [] [] [] 1.

(** Assignment to one field. *)
Definition with_tokens (l : list Token) (s : SentryDataCompiler) :=
  mkCompiler l (symbol_table s) (errors s) (stack s) (current_line s).
Definition with_errors (l : list CompilerError) (s : SentryDataCompiler) :=
  mkCompiler (tokens s) (symbol_table s) l (stack s) (current_line s).
Definition with_stack (l : list pyval) (s : SentryDataCompiler) :=
  mkCompiler (tokens s) (symbol_table s) (errors s) l (current_line s).
Definition with_current_line (n : nat) (s : SentryDataCompiler) :=
  mkCompiler (tokens s) (symbol_table s) (errors s) (stack s) n.

(* ================================================================= *)
(** ** Methods as state transformers *)

Inductive outcome (A : Type) : Type :=
| Return (a : A) (s : SentryDataCompiler)
| Raise (e : exn) (s : SentryDataCompiler)
| OutOfFuel.
Arguments Return {A} a s.
Arguments Raise {A} e s.
Arguments OutOfFuel {A}.

Definition M (A : Type) : Type := SentryDataCompiler -> outcome A.

Definition ret {A} (a : A) : M A := fun s => Return a s.

Definition bind {A B} (m : M A) (k : A -> M B) : M B :=
  fun s =>
    match m s with
    | Return a s' => k a s'
    | Raise e s' => Raise e s'
    | OutOfFuel => OutOfFuel
    end.

Declare Scope monad_scope.
Delimit Scope monad_scope with monad.
Notation "x <- m ;; k" := (bind m (fun x => k))
  (at level 61, m at next level, right associativity) : monad_scope.
Notation "' p <- m ;; k" := (bind m (fun x => let 'p := x in k))
  (at level 61, p pattern, m at next level, right associativity)
  : monad_scope.
Notation "m ;; k" := (bind m (fun _ => k))
  (at level 61, right associativity) : monad_scope.
Local Open Scope monad_scope.

Definition raise {A} (e : exn) : M A := fun s => Raise e s.

Definition get : M SentryDataCompiler := fun s => Return s s.

Definition lift {A} (r : result A) : M A :=
  match r with
  | Ok a => ret a
  | Err e => raise e
  end.

Definition modify (f : SentryDataCompiler -> SentryDataCompiler) : M unit :=
  fun s => Return tt (f s).

Definition set_tokens (l : list Token) : M unit := modify (with_tokens l).
Definition set_errors (l : list CompilerError) : M unit :=
  modify (with_errors l).
Definition set_stack (l : list pyval) : M unit := modify (with_stack l).
Definition set_current_line (n : nat) : M unit :=
  modify (with_current_line n).

(** [self.tokens.append(t)] *)
Definition tokens_append (t : Token) : M unit :=
  s <- get ;; set_tokens (tokens s ++ [t]).

(** [self.errors.append(e)] *)
Definition errors_append (e : CompilerError) : M unit :=
  s <- get ;; set_errors (errors s ++ [e]).

(** [self.stack.append(v)] *)
Definition stack_append (v : pyval) : M unit :=
  s <- get ;; set_stack (stack s ++ [v]).

(** [self.stack.pop()] *)
Definition stack_pop : M pyval :=
  s <- get ;;
  match rev (stack s) with
  | [] => raise IndexError
  | v :: below => set_stack (rev below) ;; ret v
  end.

(* ================================================================= *)
(** ** Phase 1: lexical analysis *)

Definition keywords : list string :=
  ["AND"; "OR"; "NOT"; "IF"; "THEN"; "ELSE"; "ENDIF";
   "DELETE"; "MODIFY"; "EXTRACT"; "FILTER"; "LOAD"; "SAVE";
   "DUP"; "DROP"; "SWAP"; "PRINT"].

Definition operators : list (string * string) :=
  [("==", "OP_EQ"); ("!=", "OP_NEQ"); ("<=", "OP_LTE"); (">=", "OP_GTE");
   ("+", "OP_ADD"); ("-", "OP_SUB"); ("*", "OP_MUL"); ("/", "OP_DIV");
   ("<", "OP_LT"); (">", "OP_GT")].

(** [x in keywords] *)
Definition in_set (x : string) (l : list string) : bool :=
  existsb (String.eqb x) l.

(** [operators[k]] when [k in operators]. *)
Fixpoint dict_get (k : string) (d : list (string * string)) : option string :=
  match d with
  | [] => None
  | (k', v) :: d' => if String.eqb k k' then Some v else dict_get k d'
  end.

Definition is_underscore (c : ascii) : bool := Ascii.eqb c "_"%char.
Definition is_dquote (c : ascii) : bool := Ascii.eqb c dquote.

Definition str1 (c : ascii) : string := String c EmptyString.

(** One turn of the [while i < len(line)] loop with [line[i:] = String ch r]:
    the text left to scan and the column after it. *)
Definition scan_token (ch : ascii) (r : string) (column : nat)
    : M (string * nat) :=
  (* Espacios *)
  if isspace ch then ret (r, column + 1)
  (* NÚMEROS *)
  else if isdigit ch then
    let start_col := column in
    let '(num, rest) := span (fun c => isdigit c || is_dot c) (String ch r) in
    let column := column + String.length num in
    f <- lift (float_of_str num) ;;
    s <- get ;;
    tokens_append (mkToken "NUMBER" (VFloat f) (current_line s) start_col) ;;
    ret (rest, column)
  (* STRINGS *)
  else if is_dquote ch then
    let start_col := column in
    let column := column + 1 in
    let '(value, rest) := span (fun c => negb (is_dquote c)) r in
    let column := column + String.length value in
    s <- get ;;
    match rest with
    | String q rest' =>
        if is_dquote q then
          tokens_append (mkToken "STRING" (VStr value) (current_line s) start_col) ;;
          ret (rest', column + 1)
        else
          errors_append (mkCompilerError (current_line s) "LÉXICO" "String sin cerrar") ;;
          ret (rest, column)
    | EmptyString =>
        errors_append (mkCompilerError (current_line s) "LÉXICO" "String sin cerrar") ;;
        ret (rest, column)
    end
  (* IDENTIFICADORES / PALABRAS RESERVADAS *)
  else if isalpha ch || is_underscore ch then
    let start_col := column in
    let '(ident, rest) :=
      span (fun c => isalnum c || is_underscore c) (String ch r) in
    let column := column + String.length ident in
    s <- get ;;
    (if in_set (upper ident) keywords
     then tokens_append (mkToken "KEYWORD" (VStr (upper ident)) (current_line s) start_col)
     else tokens_append (mkToken "IDENTIFIER" (VStr ident) (current_line s) start_col)) ;;
    ret (rest, column)
  else
    (* OPERADORES (2 caracteres primero) *)
    let two_char :=
      match r with
      | String c2 r' =>
          let two := String ch (str1 c2) in
          match dict_get two operators with
          | Some name => Some (name, two, r')
          | None => None
          end
      | EmptyString => None
      end in
    match two_char with
    | Some (name, two, r') =>
        s <- get ;;
        tokens_append (mkToken name (VStr two) (current_line s) column) ;;
        ret (r', column + 2)
    | None =>
        (* Operadores de 1 carácter *)
        match dict_get (str1 ch) operators with
        | Some name =>
            s <- get ;;
            tokens_append (mkToken name (VStr (str1 ch)) (current_line s) column) ;;
            ret (r, column + 1)
        | None =>
            (* CARÁCTER NO RECONOCIDO *)
            s <- get ;;
            errors_append
              (mkCompilerError (current_line s) "LÉXICO"
                 ("Carácter no reconocido: '" ++ str1 ch ++ "'")) ;;
            ret (r, column + 1)
        end
    end.

(** The [while i < len(line)] loop, from [line[i:] = rest]. *)
Fixpoint scan_line (fuel : nat) (rest : string) (column : nat) : M unit :=
  match rest with
  | EmptyString => ret tt
  | String ch r =>
      match fuel with
      | O => fun _ => OutOfFuel
      | S fuel' =>
          '(rest', column') <- scan_token ch r column ;;
          scan_line fuel' rest' column'
      end
  end.

(** The [for line_index, raw_line in enumerate(lines)] loop. *)
Fixpoint scan_lines (line_index : nat) (lines : list string) : M unit :=
  match lines with
  | [] => ret tt
  | raw_line :: more =>
      set_current_line (line_index + 1) ;;
      let line := strip raw_line in
      (* Ignorar líneas vacías y comentarios *)
      (if (String.length line =? 0)%nat || startswith "//" line then ret tt
       else scan_line (String.length line) line 0) ;;
      scan_lines (S line_index) more
  end.

Definition lexical_analysis (code : string) : M (list Token) :=
  set_tokens [] ;;
  set_errors [] ;;
  scan_lines 0 (splitlines code) ;;
  s <- get ;;
  ret (tokens s).

(* ================================================================= *)
(** ** Phase 2: stack virtual machine *)

(** [execute_bin_op(op_name, func)]; [func] is called as [func(a, b)]. *)
Definition execute_bin_op (op_name : string)
    (func : pyval -> pyval -> result pyval) : M fstring :=
  s <- get ;;
  if (List.length (stack s) <? 2)%nat then
    errors_append
      (mkCompilerError (current_line s) "EJECUCIÓN"
         ("Stack underflow: " ++ op_name ++ " requiere 2 operandos")) ;;
    ret [Lit "ERROR: Stack underflow en "; Val (VStr op_name)]
  else
    a <- stack_pop ;;
    b <- stack_pop ;;
    result <- lift (func a b) ;;
    stack_append result ;;
    ret [Val (VStr op_name); Lit ": "; Val b; Lit " "; Val (VStr op_name);
         Lit " "; Val a; Lit " = "; Val result].

(** [v.upper()] for the value of a token: only a [str] has the method. *)
Definition value_upper (v : pyval) : result string :=
  match v with
  | VStr s => Ok (upper s)
  | _ => Err AttributeError
  end.

Definition boolean (f : bool -> bool -> bool) (x y : pyval) : result pyval :=
  Ok (VBool (f (py_bool x) (py_bool y))).

Definition compared (f : pyval -> pyval -> bool) (x y : pyval)
    : result pyval :=
  Ok (VBool (f x y)).

(** [process_token(token)]: the action text. *)
Definition process_token (token : Token) : M fstring :=
  let t := token_type token in
  if String.eqb t "NUMBER" then
    stack_append (token_value token) ;;
    ret [Lit "PUSH "; Val (token_value token)]
  else if String.eqb t "STRING" then
    stack_append (token_value token) ;;
    ret [Lit ("PUSH " ++ str1 dquote); Val (token_value token); Lit (str1 dquote)]
  else if String.eqb t "IDENTIFIER" then
    stack_append (token_value token) ;;
    ret [Lit "PUSH "; Val (token_value token)]
  (* ARITMÉTICAS *)
  else if String.eqb t "OP_ADD" then
    execute_bin_op "+" (fun a b => py_add b a)
  else if String.eqb t "OP_SUB" then
    execute_bin_op "-" (fun a b => py_sub b a)
  else if String.eqb t "OP_MUL" then
    execute_bin_op "*" (fun a b => py_mul b a)
  else if String.eqb t "OP_DIV" then
    execute_bin_op "/" (fun a b => py_truediv b a)
  (* COMPARACIONES *)
  else if String.eqb t "OP_EQ" then
    execute_bin_op "==" (fun a b => compared py_eq b a)
  else if String.eqb t "OP_NEQ" then
    execute_bin_op "!=" (fun a b => compared py_ne b a)
  else if String.eqb t "OP_LT" then
    execute_bin_op "<" (fun a b => py_lt b a)
  else if String.eqb t "OP_GT" then
    execute_bin_op ">" (fun a b => py_gt b a)
  else if String.eqb t "OP_LTE" then
    execute_bin_op "<=" (fun a b => py_le b a)
  else if String.eqb t "OP_GTE" then
    execute_bin_op ">=" (fun a b => py_ge b a)
  (* LÓGICAS *)
  else if String.eqb t "KEYWORD" then
    kw <- lift (value_upper (token_value token)) ;;
    if String.eqb kw "AND" then
      execute_bin_op "AND" (fun a b => boolean andb b a)
    else if String.eqb kw "OR" then
      execute_bin_op "OR" (fun a b => boolean orb b a)
    else if String.eqb kw "NOT" then
      s <- get ;;
      if (List.length (stack s) <? 1)%nat then
        errors_append
          (mkCompilerError (token_line token) "EJECUCIÓN"
             "Stack underflow: NOT requiere 1 operando") ;;
        ret [Lit "ERROR: Stack underflow en NOT"]
      else
        a <- stack_pop ;;
        let result := VBool (negb (py_bool a)) in
        stack_append result ;;
        ret [Lit "NOT: !"; Val a; Lit " = "; Val result]
    else ret [Lit "KEYWORD "; Val (VStr kw); Lit " (sin implementar)"]
  else ret [Lit "IGNORADO "; Val (VStr t)].

(** The [for index, token in enumerate(tokens)] loop. *)
Fixpoint run_tokens (index : nat) (toks : list Token)
    (execution_log : list LogEntry) : M (list LogEntry) :=
  match toks with
  | [] => ret execution_log
  | token :: more =>
      action <- process_token token ;;
      s <- get ;;
      run_tokens (S index) more
        (execution_log ++ [mkLogEntry (index + 1) token action (stack s)])
  end.

Definition execute_stack_machine (toks : list Token) : M (list LogEntry) :=
  set_stack [] ;;
  run_tokens 0 toks [].

(** Inspection. *)
Definition get_errors : M (list CompilerError) := s <- get ;; ret (errors s).
Definition get_stack : M (list pyval) := s <- get ;; ret (stack s).

(** One round of the REPL on a fresh compiler: lex, then execute. *)
Definition run (src : string) : outcome (list LogEntry) :=
  (toks <- lexical_analysis src ;; execute_stack_machine toks) init.

(* ================================================================= *)
(** ** The binary operators of the evaluator *)

Inductive binop : Type :=
| Add | Sub | Mul | Div
| Eq_ | Neq | Lt_ | Gt_ | Lte | Gte.

(** Token type of an arithmetic or comparison operator. *)
Definition binop_type (o : binop) : string :=
  match o with
  | Add => "OP_ADD" | Sub => "OP_SUB" | Mul => "OP_MUL" | Div => "OP_DIV"
  | Eq_ => "OP_EQ" | Neq => "OP_NEQ" | Lt_ => "OP_LT" | Gt_ => "OP_GT"
  | Lte => "OP_LTE" | Gte => "OP_GTE"
  end.

(** The name under which [process_token] runs it. *)
Definition binop_name (o : binop) : string :=
  match o with
  | Add => "+" | Sub => "-" | Mul => "*" | Div => "/"
  | Eq_ => "==" | Neq => "!=" | Lt_ => "<" | Gt_ => ">"
  | Lte => "<=" | Gte => ">="
  end.

(** [x OP y] in Python. *)
Definition binop_eval (o : binop) (x y : pyval) : result pyval :=
  match o with
  | Add => py_add x y
  | Sub => py_sub x y
  | Mul => py_mul x y
  | Div => py_truediv x y
  | Eq_ => compared py_eq x y
  | Neq => compared py_ne x y
  | Lt_ => py_lt x y
  | Gt_ => py_gt x y
  | Lte => py_le x y
  | Gte => py_ge x y
  end.

(** The operator a token runs through [execute_bin_op], if any: the
    arithmetic and comparison token types and the keywords AND and OR. *)
Inductive runs_bin_op (tok : Token) : string -> Prop :=
| runs_binop (o : binop) :
    token_type tok = binop_type o -> runs_bin_op tok (binop_name o)
| runs_and :
    token_type tok = "KEYWORD" -> value_upper (token_value tok) = Ok "AND" ->
    runs_bin_op tok "AND"
| runs_or :
    token_type tok = "KEYWORD" -> value_upper (token_value tok) = Ok "OR" ->
    runs_bin_op tok "OR".

Definition underflow_error (line : nat) (op_name : string) : CompilerError :=
  mkCompilerError line "EJECUCIÓN"
    ("Stack underflow: " ++ op_name ++ " requiere 2 operandos").

Definition failed_action (op_name : string) : fstring :=
  [Lit "ERROR: Stack underflow en "; Val (VStr op_name)].

Definition bin_op_action (op_name : string) (b a result : pyval) : fstring :=
  [Val (VStr op_name); Lit ": "; Val b; Lit " "; Val (VStr op_name);
   Lit " "; Val a; Lit " = "; Val result].

(** Final state of an outcome, whichever way the call ended. *)
Definition final_state {A} (o : outcome A) : option SentryDataCompiler :=
  match o with
  | Return _ s => Some s
  | Raise _ s => Some s
  | OutOfFuel => None
  end.

Definition LF : string := str1 "010"%char.

(* ================================================================= *)
(** ** Vocabulary of the lexer properties *)

Definition unrecognized_error (line : nat) (ch : ascii) : CompilerError :=
  mkCompilerError line "LÉXICO" ("Carácter no reconocido: '" ++ str1 ch ++ "'").

Definition unterminated_error (line : nat) : CompilerError :=
  mkCompilerError line "LÉXICO" "String sin cerrar".

Definition all_chars_in (p : ascii -> bool) (s : string) : bool :=
  forallb p (list_ascii_of_string s).

(** The text after a lexeme does not continue it. *)
Definition stops (p : ascii -> bool) (rest : string) : Prop :=
  match rest with
  | EmptyString => True
  | String c _ => p c = false
  end.

(** The two-character operators. *)
Definition two_char_operator (two name : string) : Prop :=
  (two = "==" /\ name = "OP_EQ") \/ (two = "!=" /\ name = "OP_NEQ") \/
  (two = "<=" /\ name = "OP_LTE") \/ (two = ">=" /\ name = "OP_GTE").

Definition word_char (c : ascii) : bool := isalnum c || is_underscore c.

Definition keyword_token (word : string) (line column : nat) : Token :=
  mkToken "KEYWORD" (VStr (upper word)) line column.

Definition identifier_token (word : string) (line column : nat) : Token :=
  mkToken "IDENTIFIER" (VStr word) line column.

Fixpoint count_dquote (s : string) : nat :=
  match s with
  | EmptyString => 0
  | String c r => (if is_dquote c then 1 else 0) + count_dquote r
  end.

(** Every string literal opened in [s] is closed in [s]. *)
Definition balanced (s : string) : bool := Nat.even (count_dquote s).

Definition not_dquote (c : ascii) : bool := negb (is_dquote c).

(* ================================================================= *)
(** ** Vocabulary of the logical operators *)


Definition not_action (a result : pyval) : fstring :=
  [Lit "NOT: !"; Val a; Lit " = "; Val result].

(* ================================================================= *)
(** ** Vocabulary of the scanning and execution invariants *)

(** The state after appending tokens and errors; nothing else moves. *)
Definition extended (s : SentryDataCompiler) (new_tokens : list Token)
    (new_errors : list CompilerError) : SentryDataCompiler :=
  mkCompiler (tokens s ++ new_tokens) (symbol_table s)
    (errors s ++ new_errors) (stack s) (current_line s).

(** What a token of the lexer looks like: a NUMBER carries a float, a
    STRING or IDENTIFIER a text, a KEYWORD one of the reserved names, and an
    operator token the operator text its type stands for. *)
Definition token_shape (t : Token) : Prop :=
  (token_type t = "NUMBER" /\ exists f, token_value t = VFloat f)
  \/ (token_type t = "STRING" /\ exists v, token_value t = VStr v)
  \/ (token_type t = "IDENTIFIER" /\ exists v, token_value t = VStr v)
  \/ (token_type t = "KEYWORD"
      /\ exists kw, token_value t = VStr kw /\ In kw keywords)
  \/ (exists text, token_value t = VStr text
                   /\ dict_get text operators = Some (token_type t)).

(** The two descriptions of a lexical error. *)
Definition lexical_error (line : nat) (e : CompilerError) : Prop :=
  e = unterminated_error line \/ exists ch, e = unrecognized_error line ch.

(** A token on [line] starting at a column in [[lo, hi)]. *)
Definition token_within (line lo hi : nat) (t : Token) : Prop :=
  token_line t = line /\ lo <= token_column t < hi /\ token_shape t.

(** Source order of tokens: by line, then by column. *)
Definition token_before (t1 t2 : Token) : Prop :=
  token_line t1 < token_line t2
  \/ (token_line t1 = token_line t2 /\ token_column t1 < token_column t2).

Fixpoint count_dot (s : string) : nat :=
  match s with
  | EmptyString => 0
  | String c r => (if is_dot c then 1 else 0) + count_dot r
  end.

Definition numeral_char (c : ascii) : bool := isdigit c || is_dot c.

(** Token types that push their value. *)
Definition pushes (t : Token) : bool :=
  String.eqb (token_type t) "NUMBER" || String.eqb (token_type t) "STRING"
  || String.eqb (token_type t) "IDENTIFIER".

(** The operators whose Python operation can raise. *)
Definition may_raise (o : binop) : bool :=
  match o with
  | Eq_ | Neq => false
  | _ => true
  end.

Definition operand_error (e : exn) : Prop :=
  e = TypeError \/ e = ZeroDivisionError \/ e = OverflowError.

Definition not_underflow_error (line : nat) : CompilerError :=
  mkCompilerError line "EJECUCIÓN" "Stack underflow: NOT requiere 1 operando".

(** What scanning (part of) a line on [line], from column [lo] up to column
    [hi], has done to the compiler: tokens and errors appended, in order. *)
Definition scanned (line lo hi : nat) (s s' : SentryDataCompiler) : Prop :=
  exists new_tokens new_errors,
    s' = extended s new_tokens new_errors
    /\ Forall (token_within line lo hi) new_tokens
    /\ StronglySorted token_before new_tokens
    /\ Forall (lexical_error line) new_errors.

(** What scanning the lines numbered [lo + 1] to [lo + n] has done. *)
Definition lexed (lo n : nat) (s s' : SentryDataCompiler) : Prop :=
  exists new_tokens new_errors,
    tokens s' = tokens s ++ new_tokens
    /\ errors s' = errors s ++ new_errors
    /\ stack s' = stack s
    /\ symbol_table s' = symbol_table s
    /\ Forall (fun t => lo < token_line t <= lo + n /\ token_shape t)
         new_tokens
    /\ StronglySorted token_before new_tokens
    /\ Forall (fun e => exists line,
                   lo < line <= lo + n /\ lexical_error line e) new_errors.

(** The token types [process_token] has a branch for. *)
Definition evaluated_types : list string :=
  ["NUMBER"; "STRING"; "IDENTIFIER"; "OP_ADD"; "OP_SUB"; "OP_MUL"; "OP_DIV";
   "OP_EQ"; "OP_NEQ"; "OP_LT"; "OP_GT"; "OP_LTE"; "OP_GTE"; "KEYWORD"].

(** The errors of the evaluator: the underflow of a binary operator, stamped
    with [line], and the underflow of NOT, stamped with the line of its
    token. *)
Definition execution_error (line : nat) (tok : Token) (e : CompilerError)
    : Prop :=
  (exists op_name, e = underflow_error line op_name)
  \/ e = not_underflow_error (token_line tok).

(** What processing one token may do to the compiler when it returns: the
    lexer's fields stay, and either no error is added and the stack grows by
    at most one value, or one underflow error is added and the stack stays. *)
Definition token_processed (tok : Token) (s s' : SentryDataCompiler) : Prop :=
  tokens s' = tokens s /\ symbol_table s' = symbol_table s
  /\ current_line s' = current_line s
  /\ ((errors s' = errors s
       /\ List.length (stack s') <= S (List.length (stack s)))
      \/ (exists e, errors s' = errors s ++ [e]
                    /\ execution_error (current_line s) tok e
                    /\ stack s' = stack s)).

(** How processing one token may fail: an arithmetic or ordering operator
    whose two operands were popped and are not fit for it, or a KEYWORD token
    whose value is not a text. *)
Definition token_failed (tok : Token) (e : exn) (s s' : SentryDataCompiler)
    : Prop :=
  (exists o b a,
      token_type tok = binop_type o /\ may_raise o = true
      /\ stack s = stack s' ++ [b; a]
      /\ s' = with_stack (stack s') s
      /\ binop_eval o b a = Err e /\ operand_error e)
  \/ (token_type tok = "KEYWORD" /\ e = AttributeError /\ s' = s
      /\ forall w, token_value tok <> VStr w).

(** The text is ASCII: every character is a code point below 128. *)
Definition ascii_text (s : string) : bool :=
  forallb (fun c => (code c <? 128)%nat) (list_ascii_of_string s).

(** [get_symbol_table()]: the values of the dictionary, in insertion
    order. *)
Definition get_symbol_table : M (list SymbolTableEntry) :=
  s <- get ;; ret (map snd (symbol_table s)).

(* ================================================================= *)
(** ** Tactics *)

Ltac all_chars c :=
  destruct c as [[] [] [] [] [] [] [] []]; vm_compute; try reflexivity;
  try discriminate; auto.

(* ================================================================= *)
(** ** Lemmas on the state operations *)

Lemma stack_pop_snoc (s : SentryDataCompiler) (below : list pyval) (v : pyval) :
  stack s = below ++ [v] ->
  stack_pop s = Return v (with_stack below s).
Proof.
  intros Hs. unfold stack_pop, bind, get.
  rewrite Hs, rev_unit. cbn. now rewrite rev_involutive.
Qed.

(** Underflow branch of [execute_bin_op]. *)
Lemma execute_bin_op_underflow op_name func (s : SentryDataCompiler) :
  List.length (stack s) < 2 ->
  execute_bin_op op_name func s =
    Return (failed_action op_name)
      (with_errors (errors s ++ [underflow_error (current_line s) op_name]) s).
Proof.
  intros Hlen. unfold execute_bin_op, bind, get.
  apply Nat.ltb_lt in Hlen. now rewrite Hlen.
Qed.

(** With two operands, both are popped before [func] is called. *)
Lemma execute_bin_op_pops op_name func (s : SentryDataCompiler) rest b a :
  stack s = rest ++ [b; a] ->
  execute_bin_op op_name func s =
    match func a b with
    | Ok result =>
        Return (bin_op_action op_name b a result)
          (with_stack (rest ++ [result]) s)
    | Err e => Raise e (with_stack rest s)
    end.
Proof.
  intros Hs. unfold execute_bin_op. unfold bind at 1. unfold get at 1.
  assert (Hlen : (List.length (stack s) <? 2)%nat = false).
  { apply Nat.ltb_ge. rewrite Hs, length_app. cbn [List.length]. lia. }
  rewrite Hlen.
  unfold bind at 1.
  rewrite (stack_pop_snoc s (rest ++ [b]) a)
    by (rewrite Hs, <- app_assoc; reflexivity).
  unfold bind at 1.
  rewrite (stack_pop_snoc (with_stack (rest ++ [b]) s) rest b) by reflexivity.
  unfold bind at 1. unfold lift.
  destruct (func a b) as [result | e]; reflexivity.
Qed.

Lemma process_token_binop (tok : Token) (o : binop) :
  token_type tok = binop_type o ->
  process_token tok =
    execute_bin_op (binop_name o) (fun a b => binop_eval o b a).
Proof.
  intros Ht. unfold process_token. rewrite Ht.
  destruct o; reflexivity.
Qed.

Lemma process_token_and (tok : Token) (s : SentryDataCompiler) :
  token_type tok = "KEYWORD" -> value_upper (token_value tok) = Ok "AND" ->
  process_token tok s =
    execute_bin_op "AND" (fun a b => boolean andb b a) s.
Proof.
  intros Ht Hv. unfold process_token. rewrite Ht. cbn -[execute_bin_op].
  unfold bind at 1. rewrite Hv. reflexivity.
Qed.

Lemma process_token_or (tok : Token) (s : SentryDataCompiler) :
  token_type tok = "KEYWORD" -> value_upper (token_value tok) = Ok "OR" ->
  process_token tok s =
    execute_bin_op "OR" (fun a b => boolean orb b a) s.
Proof.
  intros Ht Hv. unfold process_token. rewrite Ht. cbn -[execute_bin_op].
  unfold bind at 1. rewrite Hv. reflexivity.
Qed.

Lemma run_tokens_cons index tok more log (s s' : SentryDataCompiler) act :
  process_token tok s = Return act s' ->
  run_tokens index (tok :: more) log s =
    run_tokens (S index) more
      (log ++ [mkLogEntry (index + 1) tok act (stack s')]) s'.
Proof.
  intros Hp. cbn [run_tokens]. unfold bind at 1. rewrite Hp. reflexivity.
Qed.

(* ================================================================= *)
(** ** Properties of the evaluator *)

(** C1 (defect of the code).  The run of ["1 0 /"] does not complete:
    [execute_bin_op] pops both operands, the division raises
    [ZeroDivisionError] out of [execute_stack_machine], no execution log is
    returned, no diagnostic is recorded, and a token after the division (the
    [5] of ["1 0 / 5"]) is never processed. *)
Theorem division_by_zero_aborts_run :
  run "1 0 /" =
    Raise ZeroDivisionError
      (mkCompiler
         [mkToken "NUMBER" (VFloat 1) 1 0; mkToken "NUMBER" (VFloat 0) 1 2;
          mkToken "OP_DIV" (VStr "/") 1 4] [] [] [] 1)
  /\ (exists s, run "1 0 / 5" = Raise ZeroDivisionError s
                /\ stack s = [] /\ errors s = []).
Proof.
  split.
  - vm_compute. reflexivity.
  - eexists. split; [vm_compute; reflexivity | split; reflexivity].
Qed.




(** C4.  A binary operator token (arithmetic, comparison, AND, OR) met with
    fewer than two values on the stack leaves the stack as it is, appends
    exactly one EJECUCIÓN stack-underflow error, returns the ERROR action,
    and the loop goes on with the next token, logging one record for it. *)
Theorem bin_op_underflow :
  forall (tok : Token) (op_name : string) (s : SentryDataCompiler),
    runs_bin_op tok op_name ->
    List.length (stack s) < 2 ->
    process_token tok s =
      Return (failed_action op_name)
        (with_errors (errors s ++ [underflow_error (current_line s) op_name]) s)
    /\ stack (with_errors
                (errors s ++ [underflow_error (current_line s) op_name]) s)
       = stack s
    /\ forall index more log,
         run_tokens index (tok :: more) log s =
           run_tokens (S index) more
             (log ++ [mkLogEntry (index + 1) tok (failed_action op_name)
                        (stack s)])
             (with_errors
                (errors s ++ [underflow_error (current_line s) op_name]) s).
Proof.
  intros tok op_name s Hop Hlen.
  assert (Hp : process_token tok s =
      Return (failed_action op_name)
        (with_errors (errors s ++ [underflow_error (current_line s) op_name]) s)).
  { destruct Hop as [o Ht | Ht Hv | Ht Hv].
    - rewrite (process_token_binop tok o Ht).
      now apply execute_bin_op_underflow.
    - rewrite (process_token_and tok s Ht Hv).
      now apply execute_bin_op_underflow.
    - rewrite (process_token_or tok s Ht Hv).
      now apply execute_bin_op_underflow. }
  split; [exact Hp | split; [reflexivity |]].
  intros index more log.
  now rewrite (run_tokens_cons index tok more log s _ _ Hp).
Qed.

Lemma bin_op_underflow_witness :
  process_token (mkToken "OP_EQ" (VStr "==") 1 3)
    (mkCompiler [] [] [] [VStr "x"] 1)
  = Return (failed_action "==")
      (mkCompiler [] [] [underflow_error 1 "=="] [VStr "x"] 1).
Proof.
  apply (bin_op_underflow (mkToken "OP_EQ" (VStr "==") 1 3) "=="
           (mkCompiler [] [] [] [VStr "x"] 1)).
  - apply (runs_binop _ Eq_). reflexivity.
  - simpl. lia.
Defined.

(** C7 (defect of the code).  [execute_bin_op] stamps its underflow error
    with [current_line], the last line the lexer visited, not with the line
    of the operator token: lexing and running the two lines [+] and [1]
    gives an OP_ADD token on line 1 and an underflow error on line 2.  The
    NOT branch uses the line of its token: the two lines [NOT] and [1] give
    an error on line 1. *)
Theorem bin_op_underflow_line_is_last_line :
  (exists log s,
     run ("+" ++ LF ++ "1") = Return log s
     /\ tokens s = [mkToken "OP_ADD" (VStr "+") 1 0;
                    mkToken "NUMBER" (VFloat 1) 2 0]
     /\ errors s = [underflow_error 2 "+"])
  /\ (exists log s,
        run ("NOT" ++ LF ++ "1") = Return log s
        /\ tokens s = [mkToken "KEYWORD" (VStr "NOT") 1 0;
                       mkToken "NUMBER" (VFloat 1) 2 0]
        /\ errors s =
             [mkCompilerError 1 "EJECUCIÓN"
                "Stack underflow: NOT requiere 1 operando"]).
Proof.
  split; eexists; eexists;
    (split; [vm_compute; reflexivity | split; reflexivity]).
Qed.

(* ----------------------------------------------------------------- *)
(** *** Logical operators *)






(* ================================================================= *)
(** ** Properties of the lexer *)

(** C2 (defect of the code).  On ["1.2.3"] the lexer collects the whole
    text as one numeral, [float] raises [ValueError] and the exception leaves
    [lexical_analysis]: no token and no LÉXICO error has been recorded. *)
Theorem malformed_number_raises :
  lexical_analysis "1.2.3" init = Raise ValueError (mkCompiler [] [] [] [] 1).
Proof. vm_compute. reflexivity. Qed.

(* ----------------------------------------------------------------- *)
(** *** Characters *)

Lemma is_dquote_eq (c : ascii) : is_dquote c = true -> c = dquote.
Proof. unfold is_dquote. apply Ascii.eqb_eq. Qed.

Lemma word_start_class (c : ascii) :
  isalpha c || is_underscore c = true ->
  isspace c = false /\ isdigit c = false /\ is_dquote c = false.
Proof. all_chars c. Qed.

Lemma word_start_word_char (c : ascii) :
  isalpha c || is_underscore c = true ->
  isalnum c || is_underscore c = true.
Proof.
  unfold isalnum. destruct (isalpha c), (is_underscore c), (isdigit c);
    cbn; congruence.
Qed.

(* ----------------------------------------------------------------- *)
(** *** [span] *)

Lemma span_lexeme (p : ascii -> bool) (w rest : string) :
  all_chars_in p w = true -> stops p rest ->
  span p (w ++ rest) = (w, rest).
Proof.
  induction w as [| c w IH]; intros Hw Hr.
  - destruct rest as [| c r]; cbn in *; [reflexivity | now rewrite Hr].
  - cbn in Hw. apply andb_true_iff in Hw as [Hc Hw].
    cbn. rewrite Hc, (IH Hw Hr). reflexivity.
Qed.

Lemma span_length (p : ascii -> bool) (s : string) :
  String.length (fst (span p s)) + String.length (snd (span p s))
  = String.length s.
Proof.
  induction s as [| c s IH]; cbn; [reflexivity |].
  destruct (p c); cbn; [| reflexivity].
  destruct (span p s) as [a b]. cbn in *. lia.
Qed.

Lemma in_set_In (x : string) (l : list string) :
  in_set x l = true <-> In x l.
Proof.
  unfold in_set. rewrite existsb_exists. split.
  - intros [y [Hy Hxy]]. apply String.eqb_eq in Hxy. now subst.
  - intros Hx. exists x. split; [exact Hx | apply String.eqb_refl].
Qed.

(* ----------------------------------------------------------------- *)
(** *** Operators *)

(** C6.  Where the scanner stands on the first character of [==], [!=],
    [<=] or [>=] and the second character follows on the line, one turn of
    the loop appends the single two-character operator token, no error, and
    moves two characters on; the text ["<="] lexes to exactly one OP_LTE
    token and no error. *)
Theorem two_char_operator_first :
  (forall (ch c2 : ascii) (r : string) (name : string)
          (column : nat) (s : SentryDataCompiler),
      two_char_operator (String ch (str1 c2)) name ->
      scan_token ch (String c2 r) column s =
        Return (r, column + 2)
          (with_tokens
             (tokens s ++
                [mkToken name (VStr (String ch (str1 c2))) (current_line s)
                   column]) s))
  /\ lexical_analysis "<=" init =
       Return [mkToken "OP_LTE" (VStr "<=") 1 0]
         (mkCompiler [mkToken "OP_LTE" (VStr "<=") 1 0] [] [] [] 1).
Proof.
  split.
  - intros ch c2 r name column s H.
    destruct H as [[H ->] | [[H ->] | [[H ->] | [H ->]]]];
      injection H as -> ->; reflexivity.
  - vm_compute. reflexivity.
Qed.

Lemma two_char_operator_first_witness :
  scan_token "<" "= 3" 4 init =
    Return (" 3", 6)
      (with_tokens [mkToken "OP_LTE" (VStr "<=") 1 4] init).
Proof.
  apply (proj1 two_char_operator_first "<"%char "="%char " 3" "OP_LTE" 4 init).
  right. right. left. split; reflexivity.
Defined.

(* ----------------------------------------------------------------- *)
(** *** Words *)

(** C9.  Where the scanner stands on a word [String ch w] (a letter or an
    underscore, then letters, digits and underscores, up to a character that
    is none of these or to the end of the line), one turn of the loop appends
    one token and moves past the word: a KEYWORD carrying the uppercased
    word when the uppercased word is one of the seventeen reserved names, and
    otherwise an IDENTIFIER carrying the word as written. *)
Theorem word_token :
  forall (ch : ascii) (w rest : string) (column : nat)
         (s : SentryDataCompiler),
    isalpha ch || is_underscore ch = true ->
    all_chars_in word_char w = true ->
    stops word_char rest ->
    let word := String ch w in
    let reserved :=
      In (upper word)
        ["AND"; "OR"; "NOT"; "IF"; "THEN"; "ELSE"; "ENDIF"; "DELETE";
         "MODIFY"; "EXTRACT"; "FILTER"; "LOAD"; "SAVE"; "DUP"; "DROP";
         "SWAP"; "PRINT"] in
    (reserved ->
     scan_token ch (w ++ rest) column s =
       Return (rest, column + String.length word)
         (with_tokens
            (tokens s ++ [keyword_token word (current_line s) column]) s))
    /\ (~ reserved ->
        scan_token ch (w ++ rest) column s =
          Return (rest, column + String.length word)
            (with_tokens
               (tokens s ++ [identifier_token word (current_line s) column])
               s)).
Proof.
  intros ch w rest column s Hch Hw Hrest word reserved.
  destruct (word_start_class ch Hch) as [Hsp [Hdg Hdq]].
  assert (Hspan : span word_char (String ch (w ++ rest)) = (word, rest)).
  { apply (span_lexeme word_char (String ch w) rest); [| exact Hrest].
    unfold all_chars_in in *. cbn [list_ascii_of_string forallb].
    rewrite Hw, andb_true_r. unfold word_char, isalnum.
    apply orb_true_iff in Hch as [Ha | Hu];
      [now rewrite Ha | rewrite Hu; apply orb_true_r]. }
  assert (Hscan : scan_token ch (w ++ rest) column s =
    Return (rest, column + String.length word)
      (with_tokens
         (tokens s ++
            [if in_set (upper word) keywords
             then keyword_token word (current_line s) column
             else identifier_token word (current_line s) column]) s)).
  { unfold scan_token. rewrite Hsp, Hdg, Hdq, Hch.
    fold word_char. rewrite Hspan.
    unfold bind, get.
    destruct (in_set (upper word) keywords); reflexivity. }
  split; intros Hres; rewrite Hscan.
  - apply (in_set_In (upper word) keywords) in Hres. now rewrite Hres.
  - destruct (in_set (upper word) keywords) eqn:E; [| reflexivity].
    apply in_set_In in E. contradiction.
Qed.

Lemma word_token_witness :
  scan_token "n" "ot x" 2 init =
    Return (" x", 5) (with_tokens [keyword_token "not" 1 2] init).
Proof.
  apply (proj1 (word_token "n" "ot" " x" 2 init eq_refl eq_refl eq_refl)).
  cbn. tauto.
Defined.

(* ----------------------------------------------------------------- *)
(** *** Numbers *)

Lemma not_self_snoc {A} (l : list A) (x : A) : l = l ++ [x] -> False.
Proof.
  intros H. apply (f_equal (@List.length A)) in H.
  rewrite length_app in H. cbn in H. lia.
Qed.

Lemma appended_token (s : SentryDataCompiler) (t tok : Token) :
  tokens (with_tokens (tokens s ++ [t]) s) = tokens s ++ [tok] -> t = tok.
Proof.
  cbn. intros H. apply app_inj_tail in H. tauto.
Qed.

Lemma operator_name_not_number (k name : string) :
  dict_get k operators = Some name -> name <> "NUMBER".
Proof.
  unfold operators. cbn [dict_get].
  repeat (destruct (String.eqb k _); [intros [= <-]; discriminate |]).
  discriminate.
Qed.

(** C10.  A turn of the scanning loop appends a NUMBER token only when the
    character it stands on is a digit.  So a [-] always becomes an OP_SUB
    token of its own and a [.] at the scanner's position an unrecognised
    character: ["-3"] lexes as OP_SUB then NUMBER 3.0, and [".5"] as a LÉXICO
    error for ['.'] then NUMBER 5.0. *)
Theorem number_starts_at_digit :
  (forall (ch : ascii) (r : string) (column : nat) (s : SentryDataCompiler)
          (rest' : string) (column' : nat) (s' : SentryDataCompiler)
          (tok : Token),
      scan_token ch r column s = Return (rest', column') s' ->
      tokens s' = tokens s ++ [tok] ->
      token_type tok = "NUMBER" ->
      isdigit ch = true)
  /\ (forall (r : string) (column : nat) (s : SentryDataCompiler),
        scan_token "-" r column s =
          Return (r, column + 1)
            (with_tokens
               (tokens s ++
                  [mkToken "OP_SUB" (VStr "-") (current_line s) column]) s))
  /\ (forall (r : string) (column : nat) (s : SentryDataCompiler),
        scan_token "." r column s =
          Return (r, column + 1)
            (with_errors
               (errors s ++ [unrecognized_error (current_line s) "."]) s))
  /\ lexical_analysis "-3" init =
       Return [mkToken "OP_SUB" (VStr "-") 1 0; mkToken "NUMBER" (VFloat 3) 1 1]
         (mkCompiler
            [mkToken "OP_SUB" (VStr "-") 1 0; mkToken "NUMBER" (VFloat 3) 1 1]
            [] [] [] 1)
  /\ lexical_analysis ".5" init =
       Return [mkToken "NUMBER" (VFloat 5) 1 1]
         (mkCompiler [mkToken "NUMBER" (VFloat 5) 1 1] []
            [unrecognized_error 1 "."] [] 1).
Proof.
  split; [| split; [| split; [| split]]].
  - intros ch r column s rest' column' s' tok Hscan Htok Htype.
    destruct (isdigit ch) eqn:Hdg; [reflexivity | exfalso].
    unfold scan_token in Hscan. rewrite Hdg in Hscan.
    destruct (isspace ch).
    { injection Hscan as _ _ <-. now apply not_self_snoc in Htok. }
    destruct (is_dquote ch).
    { destruct (span (fun c => negb (is_dquote c)) r) as [value rest].
      unfold bind, get in Hscan.
      destruct rest as [| q rest0]; [| destruct (is_dquote q)];
        cbn in Hscan; injection Hscan as _ _ <-.
      - now apply not_self_snoc in Htok.
      - apply appended_token in Htok. subst tok. discriminate.
      - now apply not_self_snoc in Htok. }
    destruct (isalpha ch || is_underscore ch).
    { destruct (span (fun c => isalnum c || is_underscore c) (String ch r))
        as [ident rest].
      unfold bind, get in Hscan.
      destruct (in_set (upper ident) keywords);
        cbn in Hscan; injection Hscan as _ _ <-;
        apply appended_token in Htok; subst tok; discriminate. }
    destruct r as [| c2 r'].
    + destruct (dict_get (str1 ch) operators) as [name |] eqn:Hop;
        cbn in Hscan; injection Hscan as _ _ <-.
      * apply appended_token in Htok. subst tok.
        now apply (operator_name_not_number _ _ Hop).
      * now apply not_self_snoc in Htok.
    + destruct (dict_get (String ch (str1 c2)) operators) as [name2 |] eqn:Hop2.
      { cbn in Hscan. injection Hscan as _ _ <-.
        apply appended_token in Htok. subst tok.
        now apply (operator_name_not_number _ _ Hop2). }
      destruct (dict_get (str1 ch) operators) as [name |] eqn:Hop;
        cbn in Hscan; injection Hscan as _ _ <-.
      * apply appended_token in Htok. subst tok.
        now apply (operator_name_not_number _ _ Hop).
      * now apply not_self_snoc in Htok.
  - intros r column s. destruct r as [| c2 r']; reflexivity.
  - intros r column s. destruct r as [| c2 r']; reflexivity.
  - vm_compute. reflexivity.
  - vm_compute. reflexivity.
Qed.

Lemma number_starts_at_digit_witness :
  isdigit "3" = true.
Proof.
  apply (proj1 number_starts_at_digit "3"%char "" 1
           (with_tokens [mkToken "OP_SUB" (VStr "-") 1 0] init)
           "" 2
           (with_tokens [mkToken "OP_SUB" (VStr "-") 1 0;
                         mkToken "NUMBER" (VFloat 3) 1 1] init)
           (mkToken "NUMBER" (VFloat 3) 1 1)).
  - vm_compute. reflexivity.
  - reflexivity.
  - reflexivity.
Defined.

(* ----------------------------------------------------------------- *)
(** *** Termination of the scanning loop *)

Lemma span_rest_length (p : ascii -> bool) (s a b : string) :
  span p s = (a, b) -> String.length b <= String.length s.
Proof.
  intros H. pose proof (span_length p s) as L. rewrite H in L. cbn in L. lia.
Qed.

(** A turn of the loop consumes at least one character, does not run out of
    fuel and leaves [current_line] alone. *)
Lemma scan_token_progress (ch : ascii) (r : string) (column : nat)
    (s : SentryDataCompiler) :
  match scan_token ch r column s with
  | Return (rest', _) s' =>
      String.length rest' <= String.length r
      /\ current_line s' = current_line s
  | Raise _ s' => current_line s' = current_line s
  | OutOfFuel => False
  end.
Proof.
  unfold scan_token.
  destruct (isspace ch); [cbn; auto |].
  destruct (isdigit ch) eqn:Hdg.
  { cbn [span]. rewrite Hdg. cbn [orb].
    destruct (span (fun c => isdigit c || is_dot c) r) as [num rest] eqn:E.
    apply span_rest_length in E.
    unfold bind, lift.
    destruct (float_of_str (String ch num)); cbn; [| reflexivity].
    split; [exact E | reflexivity]. }
  destruct (is_dquote ch).
  { destruct (span (fun c => negb (is_dquote c)) r) as [value rest] eqn:E.
    apply span_rest_length in E.
    unfold bind, get.
    destruct rest as [| q rest0]; [| destruct (is_dquote q)]; cbn in *;
      (split; [lia | reflexivity]). }
  destruct (isalpha ch || is_underscore ch) eqn:Hw.
  { cbn [span]. rewrite (word_start_word_char ch Hw).
    destruct (span (fun c => isalnum c || is_underscore c) r)
      as [ident rest] eqn:E.
    apply span_rest_length in E.
    unfold bind, get.
    destruct (in_set (upper (String ch ident)) keywords); cbn;
      (split; [exact E | reflexivity]). }
  destruct r as [| c2 r'].
  - destruct (dict_get (str1 ch) operators); cbn; auto.
  - destruct (dict_get (String ch (str1 c2)) operators).
    + cbn. split; [lia | reflexivity].
    + destruct (dict_get (str1 ch) operators); cbn; auto.
Qed.

Lemma scan_line_total (fuel : nat) :
  forall (rest : string) (column : nat) (s : SentryDataCompiler),
    String.length rest <= fuel ->
    match scan_line fuel rest column s with
    | Return _ s' | Raise _ s' => current_line s' = current_line s
    | OutOfFuel => False
    end.
Proof.
  induction fuel as [| fuel IH]; intros rest column s Hlen.
  - destruct rest; [reflexivity | cbn in Hlen; lia].
  - destruct rest as [| ch r]; [reflexivity |].
    cbn [scan_line]. unfold bind at 1.
    pose proof (scan_token_progress ch r column s) as P.
    destruct (scan_token ch r column s) as [[rest' column'] s' | e s' |];
      [| exact P | exact P].
    destruct P as [Pl Pc]. cbn in Hlen.
    specialize (IH rest' column' s' ltac:(lia)).
    destruct (scan_line fuel rest' column' s'); congruence.
Qed.

Lemma scan_lines_total (lines : list string) :
  forall (line_index : nat) (s : SentryDataCompiler),
    scan_lines line_index lines s <> OutOfFuel.
Proof.
  induction lines as [| raw_line more IH]; intros line_index s.
  - discriminate.
  - cbn [scan_lines]. unfold bind at 1. cbn [set_current_line modify].
    unfold bind at 1.
    set (s0 := with_current_line (line_index + 1) s).
    set (line := strip raw_line).
    destruct ((String.length line =? 0)%nat || startswith "//" line).
    + cbn. apply IH.
    + pose proof (scan_line_total (String.length line) line 0 s0 (le_n _)) as T.
      destruct (scan_line (String.length line) line 0 s0);
        [apply IH | discriminate | contradiction].
Qed.

(** The fuel given to the scanning loop is enough: [lexical_analysis]
    returns its tokens or raises. *)
Lemma lexical_analysis_total (code : string) (s : SentryDataCompiler) :
  lexical_analysis code s <> OutOfFuel.
Proof.
  unfold lexical_analysis, bind. cbn [set_tokens set_errors modify].
  pose proof (scan_lines_total (splitlines code) 0
                (with_errors [] (with_tokens [] s))) as T.
  destruct (scan_lines 0 (splitlines code) _); [discriminate | discriminate |].
  contradiction.
Qed.

(* ----------------------------------------------------------------- *)
(** *** Strings *)

Lemma space_not_dquote (c : ascii) : isspace c = true -> is_dquote c = false.
Proof. all_chars c. Qed.

Lemma numeral_char_not_dquote (c : ascii) :
  isdigit c || is_dot c = true -> is_dquote c = false.
Proof. all_chars c. Qed.

Lemma word_char_not_dquote (c : ascii) :
  isalnum c || is_underscore c = true -> is_dquote c = false.
Proof. all_chars c. Qed.

Lemma dquote_second_not_operator (ch : ascii) :
  dict_get (String ch (str1 dquote)) operators = None.
Proof.
  unfold operators. cbn [dict_get String.eqb str1].
  repeat match goal with
         | |- context [Ascii.eqb ch ?c] => destruct (Ascii.eqb ch c)
         end; reflexivity.
Qed.

Lemma span_app (p : ascii -> bool) (r : string) (c : ascii) (x : string) :
  p c = false ->
  span p (r ++ String c x) =
    (fst (span p r), (snd (span p r) ++ String c x)%string).
Proof.
  intros Hc. induction r as [| a r IH]; cbn.
  - now rewrite Hc.
  - destruct (p a); [| reflexivity].
    rewrite IH. destruct (span p r). reflexivity.
Qed.

Lemma span_app_stop (p : ascii -> bool) (r a b x : string) (c : ascii) :
  span p r = (a, String c b) ->
  span p (r ++ x) = (a, (String c b ++ x)%string).
Proof.
  revert a. induction r as [| d r IH]; intros a H; cbn in *.
  - discriminate.
  - destruct (p d).
    + destruct (span p r) as [a' b'] eqn:E. injection H as <- ->.
      now rewrite (IH a' eq_refl).
    + injection H as <- <- <-. reflexivity.
Qed.

Lemma span_stops (p : ascii -> bool) (s a b : string) :
  span p s = (a, b) -> stops p b.
Proof.
  revert a. induction s as [| c s IH]; intros a H; cbn in *.
  - injection H as <- <-. exact I.
  - destruct (p c) eqn:Hc.
    + destruct (span p s) as [a' b'] eqn:E. injection H as <- <-.
      now apply (IH a').
    + injection H as <- <-. exact Hc.
Qed.

Lemma span_count (p : ascii -> bool) (s a b : string) :
  (forall c, p c = true -> is_dquote c = false) ->
  span p s = (a, b) -> count_dquote b = count_dquote s.
Proof.
  intros Hp. revert a. induction s as [| c s IH]; intros a H; cbn in *.
  - injection H as <- <-. reflexivity.
  - destruct (p c) eqn:Hc.
    + destruct (span p s) as [a' b'] eqn:E. injection H as <- <-.
      rewrite (Hp c Hc). now apply (IH a').
    + injection H as <- <-. reflexivity.
Qed.

Lemma not_dquote_sound (c : ascii) : not_dquote c = true -> is_dquote c = false.
Proof. unfold not_dquote. now destruct (is_dquote c). Qed.

(** One turn of the loop on a balanced text is not affected by an opening
    quote that follows the text, and leaves a balanced text to scan. *)
Lemma scan_token_before_quote (ch : ascii) (r body : string) (column : nat)
    (s : SentryDataCompiler) (rest' : string) (column' : nat)
    (s' : SentryDataCompiler) :
  balanced (String ch r) = true ->
  scan_token ch r column s = Return (rest', column') s' ->
  scan_token ch (r ++ String dquote body) column s =
    Return ((rest' ++ String dquote body)%string, column') s'
  /\ balanced rest' = true.
Proof.
  unfold balanced. cbn [count_dquote]. intros Hbal H.
  unfold scan_token in H |- *.
  destruct (isspace ch) eqn:Hsp.
  { injection H as <- <- <-. rewrite (space_not_dquote ch Hsp) in Hbal.
    split; [reflexivity | exact Hbal]. }
  destruct (isdigit ch) eqn:Hdg.
  { change (String ch (r ++ String dquote body))
      with (String ch r ++ String dquote body)%string.
    rewrite (span_app _ (String ch r) dquote body eq_refl).
    destruct (span (fun c => isdigit c || is_dot c) (String ch r))
      as [num rest] eqn:E.
    cbn [fst snd]. unfold bind, lift in H |- *.
    destruct (float_of_str num); cbn in H |- *; [| discriminate].
    injection H as <- <- <-. split; [reflexivity |].
    rewrite (span_count _ _ _ _ numeral_char_not_dquote E). exact Hbal. }
  destruct (is_dquote ch) eqn:Hdq.
  { fold not_dquote in H |- *.
    destruct (span not_dquote r) as [value rest] eqn:E.
    pose proof (span_count _ _ _ _ not_dquote_sound E) as Hcount.
    pose proof (span_stops _ _ _ _ E) as Hstop.
    rewrite <- Hcount in Hbal.
    destruct rest as [| q rest0]; [discriminate Hbal |].
    rewrite (span_app_stop _ _ _ _ (String dquote body) _ E).
    cbn [append]. cbn in Hstop. unfold not_dquote in Hstop.
    apply negb_false_iff in Hstop. rewrite Hstop in H |- *.
    unfold bind, get in H |- *. cbn in H |- *.
    injection H as <- <- <-. split; [reflexivity |].
    cbn [count_dquote] in Hbal. rewrite Hstop in Hbal. exact Hbal. }
  cbn [Nat.add] in Hbal.
  destruct (isalpha ch || is_underscore ch) eqn:Hw.
  { change (String ch (r ++ String dquote body))
      with (String ch r ++ String dquote body)%string.
    rewrite (span_app _ (String ch r) dquote body eq_refl).
    destruct (span (fun c => isalnum c || is_underscore c) (String ch r))
      as [ident rest] eqn:E.
    cbn [fst snd]. unfold bind, get in H |- *.
    pose proof (span_count _ _ _ _ word_char_not_dquote E) as Hcount.
    cbn [count_dquote] in Hcount. rewrite Hdq in Hcount.
    destruct (in_set (upper ident) keywords); cbn in H |- *;
      injection H as <- <- <-; (split; [reflexivity |]);
      rewrite Hcount; exact Hbal. }
  destruct r as [| c2 r'].
  - cbn [append]. rewrite dquote_second_not_operator.
    destruct (dict_get (str1 ch) operators); cbn in H |- *;
      injection H as <- <- <-; split; reflexivity.
  - cbn [append].
    destruct (dict_get (String ch (str1 c2)) operators) as [name2 |] eqn:Hop2.
    + cbn in H |- *. injection H as <- <- <-. split; [reflexivity |].
      cbn [count_dquote] in Hbal.
      destruct (is_dquote c2) eqn:Hc2; [| exact Hbal].
      apply is_dquote_eq in Hc2. subst c2.
      rewrite dquote_second_not_operator in Hop2. discriminate.
    + destruct (dict_get (str1 ch) operators); cbn in H |- *;
        injection H as <- <- <-; (split; [reflexivity | exact Hbal]).
Qed.

Lemma span_no_dquote (body : string) :
  count_dquote body = 0 -> span not_dquote body = (body, EmptyString).
Proof.
  induction body as [| c body IH]; cbn; [reflexivity |].
  unfold not_dquote at 1. destruct (is_dquote c); cbn; [discriminate |].
  intros H. now rewrite (IH H).
Qed.

(** The scanner on an opening quote with no closing quote after it: one
    error, no token, and the line is used up. *)
Lemma scan_line_open_quote (k : nat) (body : string) (column : nat)
    (s : SentryDataCompiler) :
  count_dquote body = 0 ->
  scan_line (S k) (String dquote body) column s =
    Return tt
      (with_errors (errors s ++ [unterminated_error (current_line s)]) s).
Proof.
  intros Hbody. cbn [scan_line]. unfold bind at 1. unfold scan_token.
  change (isspace dquote) with false. change (isdigit dquote) with false.
  change (is_dquote dquote) with true. cbn iota.
  fold not_dquote. rewrite (span_no_dquote body Hbody).
  destruct k; reflexivity.
Qed.

Lemma scan_line_before_open_quote (fuel : nat) :
  forall (prefix body : string) (column : nat) (s s1 : SentryDataCompiler)
         (k : nat),
    balanced prefix = true ->
    count_dquote body = 0 ->
    scan_line fuel prefix column s = Return tt s1 ->
    scan_line (fuel + S k) (prefix ++ String dquote body) column s =
      Return tt
        (with_errors (errors s1 ++ [unterminated_error (current_line s1)]) s1).
Proof.
  induction fuel as [| fuel IH];
    intros prefix body column s s1 k Hbal Hbody Hscan;
    destruct prefix as [| ch r].
  - injection Hscan as <-. now apply scan_line_open_quote.
  - discriminate Hscan.
  - injection Hscan as <-. now apply scan_line_open_quote.
  - cbn [scan_line Nat.add append] in Hscan |- *.
    unfold bind at 1 in Hscan. unfold bind at 1.
    destruct (scan_token ch r column s) as [[rest' column'] s' | e s' |] eqn:E;
      [| discriminate | discriminate].
    destruct (scan_token_before_quote ch r body column s rest' column' s'
                Hbal E) as [E' Hbal'].
    rewrite E'. now apply IH.
Qed.

(** C5, the claim as stated fails: a comment line is skipped whole, so the
    line made of [// ], a double quote and [bar], which contains a double
    quote with no closing quote, produces no error at all. *)
Lemma unterminated_quote_in_comment :
  lexical_analysis ("// " ++ str1 dquote ++ "bar") init =
    Return [] (mkCompiler [] [] [] [] 1).
Proof. vm_compute. reflexivity. Qed.

(** C5 (amended).  Let a line that is not skipped as a comment be, once
    stripped, [prefix], an opening double quote and [body], where the strings
    of [prefix] are closed, [body] has no double quote, and [prefix] on its
    own is scanned without a fault, leaving tokens and errors [s1].  Then the
    line leaves the tokens of [s1] and nothing more, the errors of [s1] and
    exactly one more, the LÉXICO error of the unterminated string with the
    number of the line, and scanning goes on with the next line.  The line
    made of [foo ], a double quote and [bar] gives the IDENTIFIER [foo] and
    that one error. *)
Theorem unterminated_string :
  (forall (line_index : nat) (raw_line : string) (more : list string)
          (s : SentryDataCompiler) (prefix body : string)
          (s1 : SentryDataCompiler),
      strip raw_line = (prefix ++ String dquote body)%string ->
      startswith "//" (strip raw_line) = false ->
      balanced prefix = true ->
      count_dquote body = 0 ->
      scan_line (String.length prefix) prefix 0
        (with_current_line (line_index + 1) s) = Return tt s1 ->
      scan_lines line_index (raw_line :: more) s =
        scan_lines (S line_index) more
          (with_errors (errors s1 ++ [unterminated_error (line_index + 1)])
             s1))
  /\ lexical_analysis ("foo " ++ str1 dquote ++ "bar") init =
       Return [identifier_token "foo" 1 0]
         (mkCompiler [identifier_token "foo" 1 0] [] [unterminated_error 1]
            [] 1).
Proof.
  split; [| vm_compute; reflexivity].
  intros line_index raw_line more s prefix body s1 Hline Hcomment Hbal Hbody
         Hprefix.
  cbn [scan_lines]. unfold bind at 1. cbn [set_current_line modify].
  unfold bind at 1. rewrite Hcomment, Hline.
  assert (Hlen : String.length (prefix ++ String dquote body)
                 = String.length prefix + S (String.length body)).
  { clear. induction prefix as [| c p IH]; cbn; [reflexivity | now rewrite IH]. }
  rewrite Hlen.
  replace ((String.length prefix + S (String.length body) =? 0)%nat)
    with false by (symmetry; apply Nat.eqb_neq; lia).
  cbn [orb].
  pose proof (scan_line_total (String.length prefix) prefix 0
                (with_current_line (line_index + 1) s) (le_n _)) as Hcur.
  rewrite Hprefix in Hcur. cbn in Hcur.
  rewrite (scan_line_before_open_quote _ prefix body 0 _ s1
             (String.length body) Hbal Hbody Hprefix).
  rewrite Hcur. reflexivity.
Qed.

Lemma unterminated_string_witness :
  scan_lines 0 [("foo " ++ str1 dquote ++ "bar")%string; "x"] init =
    scan_lines 1 ["x"]
      (mkCompiler [identifier_token "foo" 1 0] [] [unterminated_error 1] [] 1).
Proof.
  apply (proj1 unterminated_string 0 ("foo " ++ str1 dquote ++ "bar")%string
           ["x"] init "foo " "bar"
           (mkCompiler [identifier_token "foo" 1 0] [] [] [] 1)).
  - reflexivity.
  - reflexivity.
  - reflexivity.
  - reflexivity.
  - vm_compute. reflexivity.
Defined.

(* ================================================================= *)
(** ** Further properties of the lexer *)

Lemma span_append (p : ascii -> bool) (s : string) :
  (fst (span p s) ++ snd (span p s))%string = s.
Proof.
  induction s as [| c s IH]; cbn; [reflexivity |].
  destruct (p c); [| reflexivity].
  destruct (span p s) as [a b]. cbn in *. now rewrite IH.
Qed.

Lemma string_length_app (a b : string) :
  String.length (a ++ b) = String.length a + String.length b.
Proof. induction a as [| c a IH]; cbn; [reflexivity | now rewrite IH]. Qed.

Lemma string_app_snoc (a b : string) (c : ascii) :
  ((a ++ str1 c) ++ b)%string = (a ++ String c b)%string.
Proof. induction a as [| d a IH]; cbn; [reflexivity | now rewrite IH]. Qed.

Lemma extended_nil (s : SentryDataCompiler) : extended s [] [] = s.
Proof. destruct s. unfold extended. cbn. now rewrite !app_nil_r. Qed.

Lemma extended_extended (s : SentryDataCompiler) t1 e1 t2 e2 :
  extended (extended s t1 e1) t2 e2 = extended s (t1 ++ t2) (e1 ++ e2).
Proof. unfold extended. cbn. now rewrite !app_assoc. Qed.

(** What one turn of the loop does: it consumes a nonempty lexeme, moves the
    column by its length, and appends nothing, one token at the column where
    it stood, or one lexical error; or [float] raises [ValueError] on a
    numeral and the state is as before. *)
Lemma scan_token_effect (ch : ascii) (r : string) (column : nat)
    (s : SentryDataCompiler) :
  match scan_token ch r column s with
  | Return (rest', column') s' =>
      (exists lexeme,
          String ch r = (lexeme ++ rest')%string
          /\ 0 < String.length lexeme
          /\ column' = column + String.length lexeme)
      /\ (s' = s
          \/ (exists t, s' = extended s [t] []
                        /\ token_within (current_line s) column (S column) t)
          \/ (exists e, s' = extended s [] [e]
                        /\ lexical_error (current_line s) e))
  | Raise e s' => e = ValueError /\ s' = s /\ isdigit ch = true
  | OutOfFuel => False
  end.
Proof.
  assert (Hext_t : forall t, with_tokens (tokens s ++ [t]) s = extended s [t] []).
  { intros t. destruct s. unfold extended, with_tokens. cbn.
    now rewrite app_nil_r. }
  assert (Hext_e : forall e, with_errors (errors s ++ [e]) s = extended s [] [e]).
  { intros e. destruct s. unfold extended, with_errors. cbn.
    now rewrite app_nil_r. }
  unfold scan_token.
  destruct (isspace ch).
  { cbn. split; [exists (str1 ch); cbn; repeat split; lia | now left]. }
  destruct (isdigit ch) eqn:Hdg.
  { pose proof (span_append numeral_char (String ch r)) as Happ.
    unfold numeral_char in Happ. cbn [span] in Happ |- *.
    rewrite Hdg in Happ |- *. cbn [orb] in Happ |- *.
    destruct (span (fun c => isdigit c || is_dot c) r) as [num rest].
    cbn [fst snd] in Happ.
    unfold bind, lift.
    destruct (float_of_str (String ch num)) as [f | e] eqn:Hf.
    - cbn. split.
      + exists (String ch num).
        split; [symmetry; exact Happ | split; cbn; lia].
      + right. left. eexists. split; [apply Hext_t |].
        repeat split; cbn; try lia. left. split; [reflexivity | now exists f].
    - cbn. repeat split.
      unfold float_of_str in Hf.
      destruct (span isdigit (String ch num)) as [ip rest0].
      destruct rest0 as [| c0 r0]; [| destruct (is_dot c0)];
        try destruct (_ && _); congruence. }
  destruct (is_dquote ch) eqn:Hdq.
  { pose proof (span_append (fun c => negb (is_dquote c)) r) as Happ.
    pose proof (span_stops (fun c => negb (is_dquote c)) r) as Hstop.
    destruct (span (fun c => negb (is_dquote c)) r) as [value rest].
    cbn [fst snd] in Happ. specialize (Hstop value rest eq_refl).
    unfold bind, get.
    destruct rest as [| q rest0].
    - cbn. split.
      + exists (String ch value).
        split; [cbn; f_equal; symmetry; exact Happ | split; cbn; lia].
      + right. right. eexists. split; [apply Hext_e | now left].
    - cbn in Hstop. apply negb_false_iff in Hstop. rewrite Hstop. cbn. split.
      + exists (String ch (value ++ str1 q)).
        split; [cbn; f_equal; rewrite string_app_snoc; symmetry; exact Happ |].
        cbn. rewrite string_length_app. cbn. split; lia.
      + right. left. eexists. split; [apply Hext_t |].
        repeat split; cbn; try lia.
        right. left. split; [reflexivity | now eexists]. }
  destruct (isalpha ch || is_underscore ch) eqn:Hw.
  { pose proof (span_append word_char (String ch r)) as Happ.
    unfold word_char in Happ. cbn [span] in Happ |- *.
    rewrite (word_start_word_char ch Hw) in Happ |- *.
    destruct (span (fun c => isalnum c || is_underscore c) r) as [ident rest].
    cbn [fst snd] in Happ.
    unfold bind, get.
    destruct (in_set (upper (String ch ident)) keywords) eqn:Hk; cbn.
    - split.
      + exists (String ch ident).
        split; [symmetry; exact Happ | split; cbn; lia].
      + right. left. eexists. split; [apply Hext_t |].
        repeat split; cbn; try lia.
        right. right. right. left. split; [reflexivity |].
        eexists. split; [reflexivity | now apply in_set_In].
    - split.
      + exists (String ch ident).
        split; [symmetry; exact Happ | split; cbn; lia].
      + right. left. eexists. split; [apply Hext_t |].
        repeat split; cbn; try lia.
        right. right. left. split; [reflexivity | now eexists]. }
  assert (Hone :
    match
      match dict_get (str1 ch) operators with
      | Some name =>
          s0 <- get ;;
          tokens_append (mkToken name (VStr (str1 ch)) (current_line s0) column) ;;
          ret (r, column + 1)
      | None =>
          s0 <- get ;;
          errors_append
            (mkCompilerError (current_line s0) "LÉXICO"
               ("Carácter no reconocido: '" ++ str1 ch ++ "'")) ;;
          ret (r, column + 1)
      end s
    with
    | Return (rest', column') s' =>
        (exists lexeme,
            String ch r = (lexeme ++ rest')%string
            /\ 0 < String.length lexeme
            /\ column' = column + String.length lexeme)
        /\ (s' = s
            \/ (exists t, s' = extended s [t] []
                          /\ token_within (current_line s) column (S column) t)
            \/ (exists e, s' = extended s [] [e]
                          /\ lexical_error (current_line s) e))
    | Raise e s' => e = ValueError /\ s' = s /\ isdigit ch = true
    | OutOfFuel => False
    end).
  { destruct (dict_get (str1 ch) operators) as [name |] eqn:Hop; cbn.
    - split; [exists (str1 ch); cbn; repeat split; lia |].
      right. left. eexists. split; [apply Hext_t |].
      repeat split; cbn; try lia.
      right. right. right. right. exists (str1 ch). now split.
    - split; [exists (str1 ch); cbn; repeat split; lia |].
      right. right. eexists. split; [apply Hext_e |].
      right. now exists ch. }
  rewrite Hdg in Hone.
  destruct r as [| c2 r']; [exact Hone |].
  destruct (dict_get (String ch (str1 c2)) operators) as [name2 |] eqn:Hop2;
    [| exact Hone].
  cbn. split.
  - exists (String ch (str1 c2)). cbn. repeat split; lia.
  - right. left. eexists. split; [apply Hext_t |].
    repeat split; cbn; try lia.
    right. right. right. right. exists (String ch (str1 c2)). now split.
Qed.

Lemma scanned_refl (line lo hi : nat) (s : SentryDataCompiler) :
  scanned line lo hi s s.
Proof.
  exists [], []. rewrite extended_nil.
  repeat split; constructor.
Qed.

Lemma token_within_wider (line lo hi lo' hi' : nat) (t : Token) :
  lo' <= lo -> hi <= hi' ->
  token_within line lo hi t -> token_within line lo' hi' t.
Proof. unfold token_within. intros ? ? (? & ? & ?). repeat split; auto; lia. Qed.

(** The scanning loop on [rest], standing at [column]: it ends, raising at
    most [ValueError]; the tokens it appends are on the current line, start
    inside the text scanned, at increasing columns, and it appends lexical
    errors of the current line. *)
Lemma scan_line_effect (fuel : nat) :
  forall (rest : string) (column : nat) (s : SentryDataCompiler),
    String.length rest <= fuel ->
    match scan_line fuel rest column s with
    | Return _ s' =>
        scanned (current_line s) column (column + String.length rest) s s'
    | Raise e s' =>
        e = ValueError
        /\ scanned (current_line s) column (column + String.length rest) s s'
    | OutOfFuel => False
    end.
Proof.
  induction fuel as [| fuel IH]; intros rest column s Hlen;
    destruct rest as [| ch r]; try (cbn; apply scanned_refl).
  { cbn in Hlen. lia. }
  cbn [scan_line]. unfold bind at 1.
  pose proof (scan_token_effect ch r column s) as E.
  destruct (scan_token ch r column s) as [[rest' column'] s1 | e s1 |];
    [| | exact E].
  2:{ destruct E as (-> & -> & _). split; [reflexivity | apply scanned_refl]. }
  destruct E as [(lexeme & Hlex & Hpos & ->) Hs1].
  assert (Hl : String.length (String ch r)
               = String.length lexeme + String.length rest').
  { rewrite Hlex. apply string_length_app. }
  cbn [String.length] in Hl, Hlen.
  specialize (IH rest' (column + String.length lexeme) s1 ltac:(lia)).
  assert (Hcur : current_line s1 = current_line s).
  { destruct Hs1 as [-> | [(t & -> & _) | (e & -> & _)]]; reflexivity. }
  rewrite Hcur in IH.
  assert (Hjoin : forall s',
    scanned (current_line s) (column + String.length lexeme)
      (column + String.length lexeme + String.length rest') s1 s' ->
    scanned (current_line s) column (column + String.length (String ch r)) s s').
  { intros s' (nt & ne & -> & Hnt & Hsorted & Hne).
    assert (Hnt' : Forall (token_within (current_line s) column
                             (column + String.length (String ch r))) nt).
    { eapply Forall_impl; [| exact Hnt]. intros t.
      apply token_within_wider; cbn [String.length]; lia. }
    destruct Hs1 as [-> | [(t & -> & Ht) | (e & -> & He)]].
    - exists nt, ne. repeat split; assumption.
    - exists (t :: nt), ne. rewrite extended_extended. cbn [app].
      repeat split; [| | assumption].
      + constructor; [| exact Hnt'].
        eapply token_within_wider; [| | exact Ht]; cbn [String.length]; lia.
      + constructor; [exact Hsorted |].
        eapply Forall_impl; [| exact Hnt]. intros u (Hul & Huc & _).
        destruct Ht as (Htl & Htc & _). right. split; [congruence | lia].
    - exists nt, (e :: ne). rewrite extended_extended. cbn [app].
      repeat split; [assumption | assumption |].
      constructor; assumption. }
  destruct (scan_line fuel rest' (column + String.length lexeme) s1)
    as [[] s' | e s' |]; [| | exact IH].
  - apply Hjoin, IH.
  - destruct IH as [-> IH]. split; [reflexivity | apply Hjoin, IH].
Qed.

Lemma StronglySorted_app {A} (R : A -> A -> Prop) (l1 l2 : list A) :
  StronglySorted R l1 -> StronglySorted R l2 ->
  (forall a b, In a l1 -> In b l2 -> R a b) ->
  StronglySorted R (l1 ++ l2).
Proof.
  intros H1 H2 H. induction H1 as [| a l1 H1 IH Ha]; cbn; [exact H2 |].
  constructor.
  - apply IH. intros x y Hx Hy. apply H; [now right | exact Hy].
  - apply Forall_app. split; [exact Ha |].
    apply Forall_forall. intros b Hb. apply H; [now left | exact Hb].
Qed.

Lemma lexed_refl (lo n : nat) (s s' : SentryDataCompiler) :
  tokens s' = tokens s -> errors s' = errors s -> stack s' = stack s ->
  symbol_table s' = symbol_table s ->
  lexed lo n s s'.
Proof.
  intros Ht He Hs Hy. exists [], []. rewrite !app_nil_r.
  repeat split; auto; constructor.
Qed.

(** A line scanned, then the lines after it. *)
Lemma lexed_step (lo n : nat) (s s1 s' : SentryDataCompiler) (hi : nat) :
  scanned (lo + 1) 0 hi (with_current_line (lo + 1) s) s1 ->
  lexed (S lo) n s1 s' ->
  lexed lo (S n) s s'.
Proof.
  intros (nt1 & ne1 & -> & Hnt1 & Hsorted1 & Hne1)
         (nt2 & ne2 & Ht & He & Hs & Hy & Hnt2 & Hsorted2 & Hne2).
  cbn in Ht, He, Hs, Hy.
  exists (nt1 ++ nt2), (ne1 ++ ne2).
  rewrite !app_assoc. repeat split; try assumption.
  - apply Forall_app. split.
    + eapply Forall_impl; [| exact Hnt1]. intros t (Hl & _ & Hshape).
      split; [lia | exact Hshape].
    + eapply Forall_impl; [| exact Hnt2]. intros t (Hl & Hshape).
      split; [lia | exact Hshape].
  - apply StronglySorted_app; [exact Hsorted1 | exact Hsorted2 |].
    intros a b Ha Hb. left.
    rewrite Forall_forall in Hnt1, Hnt2.
    destruct (Hnt1 a Ha) as (Hla & _). destruct (Hnt2 b Hb) as (Hlb & _). lia.
  - apply Forall_app. split.
    + eapply Forall_impl; [| exact Hne1]. intros e He1.
      exists (lo + 1). split; [lia | exact He1].
    + eapply Forall_impl; [| exact Hne2]. intros e (line & Hl & He2).
      exists line. split; [lia | exact He2].
Qed.

Lemma lexed_wider (lo n : nat) (s s' : SentryDataCompiler) :
  lexed (S lo) n s s' -> lexed lo (S n) s s'.
Proof.
  intros H. apply (lexed_step lo n s (with_current_line (lo + 1) s) s' 0).
  - apply scanned_refl.
  - destruct H as (nt & ne & H). exists nt, ne. exact H.
Qed.

(** The loop over the lines: it ends, raising at most [ValueError]; the
    tokens and errors it appends are those of the lines, in order. *)
Lemma scan_lines_effect (lines : list string) :
  forall (line_index : nat) (s : SentryDataCompiler),
    match scan_lines line_index lines s with
    | Return _ s' => lexed line_index (List.length lines) s s'
    | Raise e s' => e = ValueError /\ lexed line_index (List.length lines) s s'
    | OutOfFuel => False
    end.
Proof.
  induction lines as [| raw_line more IH]; intros line_index s.
  - cbn. now apply lexed_refl.
  - cbn [scan_lines List.length]. unfold bind at 1.
    cbn [set_current_line modify]. unfold bind at 1.
    set (s0 := with_current_line (line_index + 1) s).
    set (line := strip raw_line).
    destruct ((String.length line =? 0)%nat || startswith "//" line).
    + cbn [ret]. specialize (IH (S line_index) s0).
      assert (W : forall s', lexed (S line_index) (List.length more) s0 s' ->
                             lexed line_index (S (List.length more)) s s').
      { intros s' H. apply lexed_wider.
        destruct H as (nt & ne & H). exists nt, ne. exact H. }
      destruct (scan_lines (S line_index) more s0) as [[] s' | e s' |];
        [apply W, IH | | exact IH].
      destruct IH as [-> IH]. split; [reflexivity | apply W, IH].
    + pose proof (scan_line_effect (String.length line) line 0 s0 (le_n _)) as E.
      change (current_line s0) with (line_index + 1) in E.
      destruct (scan_line (String.length line) line 0 s0)
        as [[] s1 | e s1 |]; [| | exact E].
      * specialize (IH (S line_index) s1).
        destruct (scan_lines (S line_index) more s1) as [[] s' | e s' |];
          [| | exact IH].
        -- exact (lexed_step _ _ _ _ _ _ E IH).
        -- destruct IH as [-> IH]. split; [reflexivity |].
           exact (lexed_step _ _ _ _ _ _ E IH).
      * destruct E as [-> E]. split; [reflexivity |].
        apply (lexed_step _ _ _ s1 s1 _ E). now apply lexed_refl.
Qed.

Lemma lexical_analysis_effect (code : string) (s : SentryDataCompiler) :
  match lexical_analysis code s with
  | Return toks s' =>
      toks = tokens s'
      /\ lexed 0 (List.length (splitlines code))
           (with_errors [] (with_tokens [] s)) s'
  | Raise e s' =>
      e = ValueError
      /\ lexed 0 (List.length (splitlines code))
           (with_errors [] (with_tokens [] s)) s'
  | OutOfFuel => False
  end.
Proof.
  unfold lexical_analysis, bind. cbn [set_tokens set_errors modify].
  pose proof (scan_lines_effect (splitlines code) 0
                (with_errors [] (with_tokens [] s))) as E.
  destruct (scan_lines 0 (splitlines code) _) as [[] s' | e s' |];
    [| exact E | exact E].
  cbn. split; [reflexivity | exact E].
Qed.

(** X1.  Lexical analysis of any text ends: either it returns the token list
    it has stored in the object, or it raises, and then the exception is
    [ValueError]. *)
Theorem lexical_analysis_ends :
  forall (code : string) (s : SentryDataCompiler),
    (exists s', lexical_analysis code s = Return (tokens s') s')
    \/ (exists s', lexical_analysis code s = Raise ValueError s').
Proof.
  intros code s. pose proof (lexical_analysis_effect code s) as E.
  destruct (lexical_analysis code s) as [toks s' | e s' |]; [| | contradiction].
  - left. exists s'. destruct E as [-> _]. reflexivity.
  - right. exists s'. destruct E as [-> _]. reflexivity.
Qed.

(** X2.  The tokens returned by lexical analysis are in source order: each
    one is on a later line than the one before it, or on the same line at a
    greater column; and their line numbers run from 1 to the number of lines
    of the text. *)
Theorem tokens_in_source_order :
  forall (code : string) (s s' : SentryDataCompiler) (toks : list Token),
    lexical_analysis code s = Return toks s' ->
    StronglySorted token_before toks
    /\ Forall (fun t => 1 <= token_line t <= List.length (splitlines code))
         toks.
Proof.
  intros code s s' toks H. pose proof (lexical_analysis_effect code s) as E.
  rewrite H in E.
  destruct E as (-> & nt & ne & Ht & _ & _ & _ & Hnt & Hsorted & _).
  cbn in Ht. rewrite Ht. split; [exact Hsorted |].
  eapply Forall_impl; [| exact Hnt]. cbn. intros t [Hl _]. lia.
Qed.

Lemma tokens_in_source_order_witness :
  StronglySorted token_before
    [mkToken "IDENTIFIER" (VStr "x") 1 0; mkToken "OP_LT" (VStr "<") 1 2;
     mkToken "NUMBER" (VFloat 3) 2 0]
  /\ Forall (fun t => 1 <= token_line t
                      <= List.length (splitlines ("x <" ++ LF ++ "3")))
       [mkToken "IDENTIFIER" (VStr "x") 1 0; mkToken "OP_LT" (VStr "<") 1 2;
        mkToken "NUMBER" (VFloat 3) 2 0].
Proof.
  apply (tokens_in_source_order ("x <" ++ LF ++ "3") init
           (mkCompiler
              [mkToken "IDENTIFIER" (VStr "x") 1 0;
               mkToken "OP_LT" (VStr "<") 1 2;
               mkToken "NUMBER" (VFloat 3) 2 0] [] [] [] 2)).
  vm_compute. reflexivity.
Defined.

(** X3.  Every token returned by lexical analysis has one of the shapes of
    the lexer: NUMBER with a float, STRING or IDENTIFIER with a text, KEYWORD
    with one of the reserved names, or an operator type with the text of
    that operator. *)
Theorem lexer_tokens_well_formed :
  forall (code : string) (s s' : SentryDataCompiler) (toks : list Token),
    lexical_analysis code s = Return toks s' ->
    Forall token_shape toks.
Proof.
  intros code s s' toks H. pose proof (lexical_analysis_effect code s) as E.
  rewrite H in E.
  destruct E as (-> & nt & ne & Ht & _ & _ & _ & Hnt & _ & _).
  cbn in Ht. rewrite Ht.
  eapply Forall_impl; [| exact Hnt]. cbn. tauto.
Qed.

Lemma lexer_tokens_well_formed_witness :
  Forall token_shape
    [mkToken "KEYWORD" (VStr "NOT") 1 0; mkToken "OP_GTE" (VStr ">=") 1 4].
Proof.
  apply (lexer_tokens_well_formed "not >=" init
           (mkCompiler
              [mkToken "KEYWORD" (VStr "NOT") 1 0;
               mkToken "OP_GTE" (VStr ">=") 1 4] [] [] [] 1)).
  vm_compute. reflexivity.
Defined.

(** X4.  Lexical analysis starts from empty lists: its outcome is the same
    whatever tokens and errors the object held before, so the errors recorded
    earlier are gone.  However it ends, the error list then holds only LÉXICO
    errors (an unterminated string or an unrecognised character), each
    stamped with a line number of the text. *)
Theorem errors_after_lexing :
  forall (code : string) (s s' : SentryDataCompiler),
    final_state (lexical_analysis code s) = Some s' ->
    (forall (old_tokens : list Token) (old_errors : list CompilerError),
        lexical_analysis code
          (with_errors old_errors (with_tokens old_tokens s))
        = lexical_analysis code s)
    /\ (forall (old_tokens : list Token) (old_errors : list CompilerError)
               (s2 : SentryDataCompiler),
          final_state
            (lexical_analysis code
               (with_errors old_errors (with_tokens old_tokens s)))
          = Some s2 ->
          errors s2 = errors s')
    /\ Forall (fun e => error_type e = "LÉXICO"
                        /\ 1 <= error_line e <= List.length (splitlines code)
                        /\ lexical_error (error_line e) e)
         (errors s').
Proof.
  intros code s s' H.
  assert (Hreset : forall old_tokens old_errors,
            lexical_analysis code
              (with_errors old_errors (with_tokens old_tokens s))
            = lexical_analysis code s) by reflexivity.
  split; [exact Hreset | split].
  { intros old_tokens old_errors s2 H2. rewrite Hreset in H2. congruence. }
  pose proof (lexical_analysis_effect code s) as E.
  assert (L : lexed 0 (List.length (splitlines code))
                (with_errors [] (with_tokens [] s)) s').
  { destruct (lexical_analysis code s) as [toks s1 | e s1 |];
      cbn in H; [| | discriminate]; injection H as <-; tauto. }
  destruct L as (nt & ne & _ & He & _ & _ & _ & _ & Hne).
  cbn in He. rewrite He.
  eapply Forall_impl; [| exact Hne]. cbn.
  intros e (line & Hl & [-> | [ch ->]]); cbn;
    (split; [reflexivity | split; [lia |]]).
  - now left.
  - right. now exists ch.
Qed.

Lemma errors_after_lexing_witness :
  lexical_analysis "a ? 1.2.3"
    (mkCompiler [mkToken "NUMBER" (VFloat 9) 3 3] []
       [underflow_error 7 "+"; unrecognized_error 1 "?"] [] 7)
  = lexical_analysis "a ? 1.2.3" (mkCompiler [] [] [] [] 7).
Proof.
  apply (proj1 (errors_after_lexing "a ? 1.2.3"
                  (mkCompiler [] [] [] [] 7)
                  (mkCompiler [mkToken "IDENTIFIER" (VStr "a") 1 0] []
                     [unrecognized_error 1 "?"] [] 1)
                  ltac:(vm_compute; reflexivity))
           [mkToken "NUMBER" (VFloat 9) 3 3]
           [underflow_error 7 "+"; unrecognized_error 1 "?"]).
Defined.

(** X5.  Lexical analysis never touches the operand stack or the symbol
    table, whether it returns or raises. *)
Theorem lexing_keeps_stack :
  forall (code : string) (s s' : SentryDataCompiler),
    final_state (lexical_analysis code s) = Some s' ->
    stack s' = stack s /\ symbol_table s' = symbol_table s.
Proof.
  intros code s s' H. pose proof (lexical_analysis_effect code s) as E.
  assert (L : lexed 0 (List.length (splitlines code))
                (with_errors [] (with_tokens [] s)) s').
  { destruct (lexical_analysis code s) as [toks s1 | e s1 |];
      cbn in H; [| | discriminate]; injection H as <-; tauto. }
  destruct L as (nt & ne & _ & _ & Hs & Hy & _). cbn in Hs, Hy. now split.
Qed.

Lemma lexing_keeps_stack_witness :
  stack (mkCompiler [mkToken "NUMBER" (VFloat 2) 1 0] [] [] [VBool true] 1)
  = stack (mkCompiler [] [] [] [VBool true] 1)
  /\ symbol_table
       (mkCompiler [mkToken "NUMBER" (VFloat 2) 1 0] [] [] [VBool true] 1)
     = symbol_table (mkCompiler [] [] [] [VBool true] 1).
Proof.
  apply (lexing_keeps_stack "2" (mkCompiler [] [] [] [VBool true] 1)).
  vm_compute. reflexivity.
Defined.

Lemma scan_lines_current_line (lines : list string) :
  forall (line_index : nat) (s s' : SentryDataCompiler),
    scan_lines line_index lines s = Return tt s' ->
    current_line s' =
      match lines with
      | [] => current_line s
      | _ :: _ => line_index + List.length lines
      end.
Proof.
  induction lines as [| raw_line more IH]; intros line_index s s' H.
  - now injection H as <-.
  - cbn [scan_lines] in H. unfold bind at 1 in H.
    cbn [set_current_line modify] in H. unfold bind at 1 in H.
    set (s0 := with_current_line (line_index + 1) s) in H.
    set (line := strip raw_line) in H.
    assert (Hnext : forall s1, current_line s1 = line_index + 1 ->
              scan_lines (S line_index) more s1 = Return tt s' ->
              current_line s' = line_index + List.length (raw_line :: more)).
    { intros s1 Hc Hm. rewrite (IH _ _ _ Hm).
      destruct more; cbn [List.length]; lia. }
    destruct ((String.length line =? 0)%nat || startswith "//" line).
    + apply (Hnext s0 eq_refl H).
    + pose proof (scan_line_total (String.length line) line 0 s0 (le_n _)) as T.
      destruct (scan_line (String.length line) line 0 s0)
        as [[] s1 | e s1 |]; [| discriminate | contradiction].
      apply (Hnext s1 T H).
Qed.

(** X6.  When lexical analysis returns, [current_line] is the number of
    lines of the text, blank and comment lines included; on a text with no
    line at all it is left as it was. *)
Theorem current_line_after_lexing :
  forall (code : string) (s s' : SentryDataCompiler) (toks : list Token),
    lexical_analysis code s = Return toks s' ->
    current_line s' =
      match splitlines code with
      | [] => current_line s
      | _ :: _ => List.length (splitlines code)
      end.
Proof.
  intros code s s' toks H. unfold lexical_analysis, bind in H.
  cbn [set_tokens set_errors modify] in H.
  destruct (scan_lines 0 (splitlines code) _) as [[] s1 | e s1 |] eqn:E;
    [| discriminate | discriminate].
  cbn in H. injection H as _ <-.
  rewrite (scan_lines_current_line _ _ _ _ E).
  destruct (splitlines code); reflexivity.
Qed.

Lemma current_line_after_lexing_witness :
  current_line
    (mkCompiler [mkToken "NUMBER" (VFloat 1) 1 0] [] [] [] 3)
  = match splitlines ("1" ++ LF ++ LF ++ "// end") with
    | [] => current_line init
    | _ :: _ => List.length (splitlines ("1" ++ LF ++ LF ++ "// end"))
    end.
Proof.
  apply (current_line_after_lexing ("1" ++ LF ++ LF ++ "// end") init
           (mkCompiler [mkToken "NUMBER" (VFloat 1) 1 0] [] [] [] 3)
           [mkToken "NUMBER" (VFloat 1) 1 0]).
  vm_compute. reflexivity.
Defined.

(* ----------------------------------------------------------------- *)
(** *** Numerals *)

Lemma digit_not_space (c : ascii) :
  isdigit c = true -> isspace c = false.
Proof. all_chars c. Qed.

Lemma dot_not_digit (c : ascii) : is_dot c = true -> isdigit c = false.
Proof. all_chars c. Qed.

Lemma all_digits_no_dot (fp : string) :
  all_chars_in numeral_char fp = true ->
  (all_digits fp = true <-> count_dot fp = 0).
Proof.
  unfold all_digits, all_chars_in.
  induction fp as [| c fp IH]; cbn; [tauto |].
  intros H. apply andb_true_iff in H as [Hc H]. specialize (IH H).
  unfold numeral_char in Hc.
  destruct (is_dot c) eqn:Hd.
  - rewrite (dot_not_digit c Hd). cbn. split; [discriminate | lia].
  - rewrite orb_false_r in Hc. rewrite Hc. cbn. exact IH.
Qed.

(** [float] accepts a numeral of the lexer exactly when it has at most one
    decimal point. *)
Lemma float_of_numeral (ch : ascii) (w : string) :
  isdigit ch = true ->
  all_chars_in numeral_char w = true ->
  (count_dot w <= 1 -> exists f, float_of_str (String ch w) = Ok f)
  /\ (2 <= count_dot w -> float_of_str (String ch w) = Err ValueError).
Proof.
  intros Hch Hw. unfold float_of_str. cbn [span]. rewrite Hch.
  assert (G : forall w0,
    all_chars_in numeral_char w0 = true ->
    let '(ip, rest) := span isdigit w0 in
    (rest = EmptyString /\ count_dot w0 = 0)
    \/ (exists fp, rest = String "." fp /\ count_dot w0 = S (count_dot fp)
                   /\ all_chars_in numeral_char fp = true)).
  { clear. unfold all_chars_in.
    induction w0 as [| c w0 IH]; cbn; [intros _; now left |].
    intros H. apply andb_true_iff in H as [Hc H]. specialize (IH H).
    destruct (isdigit c) eqn:Hd.
    - destruct (span isdigit w0) as [ip rest].
      assert (Hnd : is_dot c = false).
      { destruct (is_dot c) eqn:E; [| reflexivity].
        apply dot_not_digit in E. congruence. }
      rewrite Hnd. exact IH.
    - unfold numeral_char in Hc. rewrite Hd in Hc. cbn in Hc. rewrite Hc.
      right. exists w0. repeat split; [| exact H].
      f_equal. unfold is_dot in Hc. now apply Ascii.eqb_eq in Hc. }
  specialize (G w Hw).
  destruct (span isdigit w) as [ip rest].
  destruct G as [[-> Hc] | (fp & -> & Hc & Hfp)].
  - cbn. split; [intros _; eexists; reflexivity | lia].
  - change (is_dot ".") with true. cbn iota.
    pose proof (all_digits_no_dot fp Hfp) as D.
    cbn [String.length Nat.eqb andb negb].
    destruct (all_digits fp) eqn:Ha.
    + split; [intros _; eexists; reflexivity |].
      intros H2. assert (Hz : count_dot fp = 0) by now apply D. lia.
    + split; [| reflexivity].
      intros H1. assert (Hz : count_dot fp = 0) by lia.
      apply D in Hz. discriminate.
Qed.

Lemma scan_token_number (ch : ascii) (r : string) (column : nat)
    (s : SentryDataCompiler) :
  isdigit ch = true ->
  scan_token ch r column s =
    match float_of_str (fst (span numeral_char (String ch r))) with
    | Ok f =>
        Return (snd (span numeral_char (String ch r)),
                column + String.length (fst (span numeral_char (String ch r))))
          (with_tokens
             (tokens s ++
                [mkToken "NUMBER" (VFloat f) (current_line s) column]) s)
    | Err e => Raise e s
    end.
Proof.
  intros Hd. unfold scan_token. rewrite (digit_not_space ch Hd), Hd.
  fold numeral_char.
  destruct (span numeral_char (String ch r)) as [num rest]. cbn [fst snd].
  unfold bind, lift. destruct (float_of_str num); reflexivity.
Qed.

(** X7.  Where the scanner stands on a numeral (a digit, then digits and
    decimal points, up to a character that is neither or to the end of the
    line): with at most one decimal point the numeral becomes one NUMBER
    token and the scanner moves past it; with two or more, [ValueError] is
    raised and the compiler is left as it was. *)
Theorem numeral_token :
  forall (ch : ascii) (w rest : string) (column : nat)
         (s : SentryDataCompiler),
    isdigit ch = true ->
    all_chars_in numeral_char w = true ->
    stops numeral_char rest ->
    (count_dot w <= 1 ->
     exists f,
       float_of_str (String ch w) = Ok f
       /\ scan_token ch (w ++ rest) column s =
            Return (rest, column + S (String.length w))
              (with_tokens
                 (tokens s ++
                    [mkToken "NUMBER" (VFloat f) (current_line s) column]) s))
    /\ (2 <= count_dot w ->
        scan_token ch (w ++ rest) column s = Raise ValueError s).
Proof.
  intros ch w rest column s Hd Hw Hrest.
  assert (Hspan : span numeral_char (String ch (w ++ rest))
                  = (String ch w, rest)).
  { apply (span_lexeme numeral_char (String ch w) rest); [| exact Hrest].
    unfold all_chars_in in *. cbn [list_ascii_of_string forallb].
    rewrite Hw, andb_true_r. unfold numeral_char. now rewrite Hd. }
  rewrite (scan_token_number ch (w ++ rest) column s Hd), Hspan.
  cbn [fst snd String.length].
  destruct (float_of_numeral ch w Hd Hw) as [Hok Herr]. split.
  - intros H1. destruct (Hok H1) as [f Hf]. exists f. now rewrite Hf.
  - intros H2. now rewrite (Herr H2).
Qed.

Lemma numeral_token_witness :
  scan_token "1" ".2.3 +" 0 init = Raise ValueError init.
Proof.
  apply (proj2 (numeral_token "1" ".2.3" " +" 0 init eq_refl eq_refl eq_refl)).
  cbn. lia.
Defined.

(* ----------------------------------------------------------------- *)
(** *** String literals and comments *)

(** X8.  Where the scanner stands on a double quote that is closed on the
    same line, the text between the two quotes, taken as it is, becomes one
    STRING token, and the scanner moves past the closing quote. *)
Theorem string_token :
  forall (value rest : string) (column : nat) (s : SentryDataCompiler),
    count_dquote value = 0 ->
    scan_token dquote (value ++ String dquote rest) column s =
      Return (rest, column + 1 + String.length value + 1)
        (with_tokens
           (tokens s ++
              [mkToken "STRING" (VStr value) (current_line s) column]) s).
Proof.
  intros value rest column s Hv. unfold scan_token.
  change (isspace dquote) with false. change (isdigit dquote) with false.
  change (is_dquote dquote) with true. cbn iota.
  fold not_dquote.
  rewrite (span_app not_dquote value dquote rest eq_refl).
  rewrite (span_no_dquote value Hv). cbn [fst snd append].
  change (is_dquote dquote) with true. reflexivity.
Qed.

Lemma string_token_witness :
  scan_token dquote ("if 1.2.3" ++ String dquote " x") 3 init =
    Return (" x", 3 + 1 + 8 + 1)
      (with_tokens [mkToken "STRING" (VStr "if 1.2.3") 1 3] init).
Proof.
  apply (string_token "if 1.2.3" " x" 3 init). reflexivity.
Defined.

(** X9.  A comment is recognised only at the start of a line: a line whose
    stripped text starts with [//] is skipped whole, but where the scanner
    meets [//] inside a line it appends two OP_DIV tokens and goes on
    scanning the text after them. *)
Theorem comment_only_at_line_start :
  (forall (line_index : nat) (raw_line : string) (more : list string)
          (s : SentryDataCompiler),
      startswith "//" (strip raw_line) = true ->
      scan_lines line_index (raw_line :: more) s =
        scan_lines (S line_index) more (with_current_line (line_index + 1) s))
  /\ (forall (fuel : nat) (r : string) (column : nat)
             (s : SentryDataCompiler),
        scan_line (S (S fuel)) (String "/" (String "/" r)) column s =
          scan_line fuel r (column + 1 + 1)
            (extended s
               [mkToken "OP_DIV" (VStr "/") (current_line s) column;
                mkToken "OP_DIV" (VStr "/") (current_line s) (column + 1)]
               [])).
Proof.
  split.
  - intros line_index raw_line more s H.
    cbn [scan_lines]. unfold bind at 1. cbn [set_current_line modify].
    unfold bind at 1. rewrite H, orb_true_r. reflexivity.
  - intros fuel r column s.
    assert (Hs : with_tokens
                   (tokens
                      (with_tokens
                         (tokens s ++
                            [mkToken "OP_DIV" (VStr "/") (current_line s) column])
                         s) ++
                    [mkToken "OP_DIV" (VStr "/") (current_line s) (column + 1)])
                   (with_tokens
                      (tokens s ++
                         [mkToken "OP_DIV" (VStr "/") (current_line s) column])
                      s)
                 = extended s
                     [mkToken "OP_DIV" (VStr "/") (current_line s) column;
                      mkToken "OP_DIV" (VStr "/") (current_line s) (column + 1)]
                     []).
    { destruct s. unfold extended, with_tokens. cbn.
      now rewrite <- app_assoc, app_nil_r. }
    rewrite <- Hs.
    destruct r as [| c2 r']; reflexivity.
Qed.

Lemma comment_only_at_line_start_witness :
  scan_lines 0 ["  // 1 +"; "2"]%string init =
    scan_lines 1 ["2"]%string (with_current_line 1 init).
Proof.
  apply (proj1 comment_only_at_line_start 0 "  // 1 +" ["2"]%string init).
  reflexivity.
Defined.

(* ----------------------------------------------------------------- *)
(** *** Texts without a decimal point *)

Lemma count_dot_app (a b : string) :
  count_dot (a ++ b) = count_dot a + count_dot b.
Proof. induction a as [| c a IH]; cbn; [reflexivity | rewrite IH; lia]. Qed.

Lemma count_dot_lstrip (s : string) : count_dot (lstrip s) <= count_dot s.
Proof.
  induction s as [| c s IH]; cbn; [lia |].
  destruct (isspace c); cbn; lia.
Qed.

Lemma count_dot_rstrip (s : string) : count_dot (rstrip s) <= count_dot s.
Proof.
  induction s as [| c s IH]; cbn; [lia |].
  destruct (rstrip s) as [| d t]; [destruct (isspace c) |]; cbn in *; lia.
Qed.

Lemma count_dot_strip (s : string) : count_dot s = 0 -> count_dot (strip s) = 0.
Proof.
  intros H. unfold strip.
  pose proof (count_dot_rstrip (lstrip s)). pose proof (count_dot_lstrip s).
  lia.
Qed.

Lemma splitlines_from_no_dot (n : nat) :
  forall s cur : string,
    String.length s <= n ->
    count_dot cur = 0 -> count_dot s = 0 ->
    Forall (fun l => count_dot l = 0) (splitlines_from cur s).
Proof.
  induction n as [| n IH]; intros s cur Hn Hcur Hs;
    destruct s as [| c s]; cbn [splitlines_from];
    try (destruct cur; constructor; [exact Hcur | constructor]).
  { cbn in Hn. lia. }
  cbn in Hs, Hn.
  assert (Hs' : count_dot s = 0) by lia.
  assert (Hc : (if is_dot c then 1 else 0) = 0) by lia.
  destruct (is_cr c).
  - destruct s as [| c' s'].
    + constructor; [exact Hcur | apply IH; [cbn; lia | reflexivity | exact Hs']].
    + destruct (is_lf c').
      * constructor; [exact Hcur |].
        cbn in Hs', Hn. apply IH; [lia | reflexivity | lia].
      * constructor; [exact Hcur |].
        apply IH; [lia | reflexivity | exact Hs'].
  - destruct (islinebreak c).
    + constructor; [exact Hcur | apply IH; [lia | reflexivity | exact Hs']].
    + apply IH; [lia | | exact Hs'].
      rewrite count_dot_app. cbn. lia.
Qed.

Lemma span_fst_all (p : ascii -> bool) (s : string) :
  all_chars_in p (fst (span p s)) = true.
Proof.
  unfold all_chars_in. induction s as [| c s IH]; cbn; [reflexivity |].
  destruct (p c) eqn:Hc; [| reflexivity].
  destruct (span p s) as [a b]. cbn in *. now rewrite Hc.
Qed.

Lemma scan_token_no_dot (ch : ascii) (r : string) (column : nat)
    (s : SentryDataCompiler) :
  count_dot (String ch r) = 0 ->
  exists rest' column' s',
    scan_token ch r column s = Return (rest', column') s'
    /\ count_dot rest' = 0
    /\ String.length rest' <= String.length r.
Proof.
  intros Hdot. pose proof (scan_token_effect ch r column s) as E.
  destruct (scan_token ch r column s) as [[rest' column'] s' | e s' |] eqn:T;
    [| | contradiction].
  - exists rest', column', s'. split; [reflexivity |].
    destruct E as [(lexeme & Hlex & Hpos & _) _].
    pose proof (f_equal count_dot Hlex) as Hc.
    pose proof (f_equal String.length Hlex) as Hl.
    rewrite count_dot_app in Hc. rewrite string_length_app in Hl.
    cbn [String.length] in Hl. split; lia.
  - exfalso. destruct E as (_ & _ & Hd).
    rewrite (scan_token_number ch r column s Hd) in T.
    cbn [span] in T. unfold numeral_char at 1 in T. rewrite Hd in T.
    cbn [orb] in T.
    pose proof (span_fst_all numeral_char r) as Hall.
    pose proof (span_append numeral_char r) as Happ.
    destruct (span numeral_char r) as [w rest]. cbn [fst snd] in *.
    assert (Hw : count_dot w <= 1).
    { cbn in Hdot. rewrite <- Happ, count_dot_app in Hdot. lia. }
    destruct (proj1 (float_of_numeral ch w Hd Hall) Hw) as [f Hf].
    rewrite Hf in T. discriminate.
Qed.

Lemma scan_line_no_dot (fuel : nat) :
  forall (rest : string) (column : nat) (s : SentryDataCompiler),
    String.length rest <= fuel ->
    count_dot rest = 0 ->
    exists s', scan_line fuel rest column s = Return tt s'.
Proof.
  induction fuel as [| fuel IH]; intros rest column s Hlen Hdot;
    destruct rest as [| ch r]; try (now exists s).
  destruct (scan_token_no_dot ch r column s Hdot)
    as (rest' & column' & s1 & T & Hdot' & Hl).
  cbn in Hlen.
  destruct (IH rest' column' s1 ltac:(lia) Hdot') as [s' H].
  exists s'. cbn [scan_line]. unfold bind at 1. rewrite T. exact H.
Qed.

Lemma scan_lines_no_dot (lines : list string) :
  forall (line_index : nat) (s : SentryDataCompiler),
    Forall (fun l => count_dot l = 0) lines ->
    exists s', scan_lines line_index lines s = Return tt s'.
Proof.
  induction lines as [| raw_line more IH]; intros line_index s H.
  - now exists s.
  - inversion H as [| ? ? Hline Hmore]; subst.
    cbn [scan_lines]. unfold bind at 1. cbn [set_current_line modify].
    unfold bind at 1.
    set (s0 := with_current_line (line_index + 1) s).
    set (line := strip raw_line).
    destruct ((String.length line =? 0)%nat || startswith "//" line).
    + cbn [ret]. apply IH, Hmore.
    + destruct (scan_line_no_dot (String.length line) line 0 s0 (le_n _)
                  (count_dot_strip raw_line Hline)) as [s1 H1].
      rewrite H1. apply IH, Hmore.
Qed.

(** X10.  An ASCII text with no decimal point in it is always lexed to the
    end: lexical analysis returns its tokens and raises nothing. *)
Theorem text_without_dot_is_lexed :
  forall (code : string) (s : SentryDataCompiler),
    ascii_text code = true ->
    count_dot code = 0 ->
    exists s', lexical_analysis code s = Return (tokens s') s'.
Proof.
  intros code s _ Hdot.
  destruct (scan_lines_no_dot (splitlines code) 0
              (with_errors [] (with_tokens [] s))
              (splitlines_from_no_dot (String.length code) code EmptyString
                 (le_n _) eq_refl Hdot)) as [s' H].
  exists s'. unfold lexical_analysis, bind.
  cbn [set_tokens set_errors modify]. now rewrite H.
Qed.

Lemma text_without_dot_is_lexed_witness :
  exists s', lexical_analysis "?? 12 x" init = Return (tokens s') s'.
Proof.
  apply (text_without_dot_is_lexed "?? 12 x" init); reflexivity.
Defined.

(* ================================================================= *)
(** ** Further properties of the evaluator *)

Lemma snoc2 {A} (l : list A) :
  2 <= List.length l -> exists rest b a, l = rest ++ [b; a].
Proof.
  intros H. destruct (rev l) as [| a [| b rest]] eqn:E.
  - apply (f_equal (@List.length A)) in E. rewrite length_rev in E.
    cbn in E. lia.
  - apply (f_equal (@List.length A)) in E. rewrite length_rev in E.
    cbn in E. lia.
  - exists (rev rest), b, a.
    rewrite <- (rev_involutive l), E. cbn. now rewrite <- app_assoc.
Qed.

Lemma float_of_int_error (z : Z) (e : exn) :
  float_of_int z = Err e -> e = OverflowError.
Proof.
  unfold float_of_int. destruct (is_infinite _); congruence.
Qed.

Lemma to_float_error (n : num) (e : exn) :
  to_float n = Err e -> e = OverflowError.
Proof. destruct n; cbn; [apply float_of_int_error | discriminate]. Qed.

Lemma arith_error iop fop (x y : num) (e : exn) :
  arith iop fop x y = Err e -> e = OverflowError.
Proof.
  unfold arith. intros H.
  destruct x as [a | fa], y as [b | fb]; try discriminate;
    destruct (to_float _) eqn:E1; try discriminate;
    try (injection H as <-; now apply to_float_error in E1);
    destruct (to_float _) eqn:E2 in H; try discriminate;
    injection H as <-; now apply to_float_error in E2.
Qed.

Lemma py_concat_error (a b : string) (e : exn) :
  py_concat a b = Err e -> e = OverflowError.
Proof. unfold py_concat. destruct (_ <? _)%Z; congruence. Qed.

Lemma py_repeat_error (s : string) (n : Z) (e : exn) :
  py_repeat s n = Err e -> e = OverflowError.
Proof.
  unfold py_repeat.
  destruct (_ || _); [congruence |].
  destruct (n <? 1)%Z; [discriminate |].
  destruct (_ <? _)%Z; congruence.
Qed.

(** A repetition count that is not index-sized: [*] raises [OverflowError]
    after both operands were popped, whatever the string. *)
Lemma repeat_count_out_of_range :
  process_token (mkToken "OP_MUL" (VStr "*") 1 0)
    (mkCompiler [] [] [] [VStr "ab"; VInt (- 2 ^ 64)] 1)
  = Raise OverflowError (mkCompiler [] [] [] [] 1)
  /\ py_mul (VStr EmptyString) (VInt (2 ^ 63)) = Err OverflowError
  /\ py_mul (VInt (- 2 ^ 63)) (VStr "ab") = Ok (VStr EmptyString)
  /\ py_mul (VStr "ab") (VInt 3) = Ok (VStr "ababab").
Proof. repeat split; vm_compute; reflexivity. Qed.

Lemma py_order_error holds (x y : pyval) (e : exn) :
  py_order holds x y = Err e -> e = TypeError.
Proof.
  unfold py_order. intros H.
  destruct x, y; cbn in H; try discriminate; try congruence;
    repeat match type of H with
           | context [match ?c with _ => _ end] => destruct c
           end; discriminate.
Qed.

(** The operations of the operators raise [TypeError], [ZeroDivisionError]
    or [OverflowError], and [==] and [!=] raise nothing. *)
Lemma binop_eval_error (o : binop) (x y : pyval) (e : exn) :
  binop_eval o x y = Err e -> may_raise o = true /\ operand_error e.
Proof.
  unfold operand_error. destruct o; cbn [binop_eval may_raise]; intros H;
    try discriminate; (split; [reflexivity |]).
  - unfold py_add in H.
    destruct x, y; cbn -[arith py_concat] in H; try discriminate;
      try (left; congruence);
      right; right;
      first [eapply arith_error; exact H | eapply py_concat_error; exact H].
  - unfold py_sub in H.
    destruct x, y; cbn -[arith] in H; try discriminate;
      try (left; congruence);
      right; right; eapply arith_error; exact H.
  - unfold py_mul in H.
    destruct x, y; cbn -[arith py_repeat] in H; try discriminate;
      try (left; congruence);
      right; right;
      first [eapply arith_error; exact H | eapply py_repeat_error; exact H].
  - unfold py_truediv in H.
    destruct (as_num x) as [[a | fa] |], (as_num y) as [[b | fb] |];
      try (left; congruence).
    + destruct (Z.eqb b 0); [right; left; congruence |].
      unfold int_truediv in H. destruct (is_infinite _); [| discriminate].
      right. right. congruence.
    + destruct (to_float (NInt a)) eqn:E1;
        [| right; right; injection H as <-; now apply to_float_error in E1].
      cbn [to_float] in H.
      destruct (PrimFloat.eqb fb 0); [right; left; congruence | discriminate].
    + cbn [to_float] in H.
      destruct (float_of_int b) eqn:E2;
        [| right; right; injection H as <-; now apply float_of_int_error in E2].
      destruct (PrimFloat.eqb _ 0); [right; left; congruence | discriminate].
    + cbn [to_float] in H.
      destruct (PrimFloat.eqb fb 0); [right; left; congruence | discriminate].
  - left. eapply py_order_error. exact H.
  - left. eapply py_order_error. exact H.
  - left. eapply py_order_error. exact H.
  - left. eapply py_order_error. exact H.
Qed.

Lemma token_processed_push (tok : Token) (s : SentryDataCompiler)
    (v : pyval) :
  token_processed tok s (with_stack (stack s ++ [v]) s).
Proof.
  repeat split. left. split; [reflexivity |].
  cbn. rewrite length_app. cbn. lia.
Qed.

Lemma execute_bin_op_effect (tok : Token) op_name func
    (s : SentryDataCompiler) :
  match execute_bin_op op_name func s with
  | Return _ s' => token_processed tok s s'
  | Raise e s' =>
      exists b a, stack s = stack s' ++ [b; a]
                  /\ s' = with_stack (stack s') s
                  /\ func a b = Err e
  | OutOfFuel => False
  end.
Proof.
  destruct (le_lt_dec 2 (List.length (stack s))) as [Hge | Hlt].
  - destruct (snoc2 (stack s) Hge) as (rest & b & a & Hs).
    rewrite (execute_bin_op_pops op_name func s rest b a Hs).
    destruct (func a b) as [result | e] eqn:Hf.
    + repeat split. left. split; [reflexivity |].
      cbn. rewrite Hs, !length_app. cbn. lia.
    + exists b, a. cbn. repeat split; assumption.
  - rewrite (execute_bin_op_underflow op_name func s Hlt).
    repeat split. right. eexists.
    split; [reflexivity | split; [| reflexivity]].
    left. now exists op_name.
Qed.

Lemma process_token_push (tok : Token) (s : SentryDataCompiler) :
  pushes tok = true ->
  exists act,
    process_token tok s =
      Return act (with_stack (stack s ++ [token_value tok]) s).
Proof.
  unfold pushes, process_token. intros H.
  destruct (String.eqb (token_type tok) "NUMBER"); [eexists; reflexivity |].
  destruct (String.eqb (token_type tok) "STRING"); [eexists; reflexivity |].
  destruct (String.eqb (token_type tok) "IDENTIFIER");
    [eexists; reflexivity | discriminate].
Qed.

Lemma process_token_ignored (tok : Token) (s : SentryDataCompiler) :
  ~ In (token_type tok) evaluated_types ->
  process_token tok s =
    Return [Lit "IGNORADO "; Val (VStr (token_type tok))] s.
Proof.
  intros H. unfold process_token.
  repeat match goal with
         | |- context [String.eqb (token_type tok) ?x] =>
             destruct (String.eqb_spec (token_type tok) x) as [E | E];
             [exfalso; apply H; rewrite E; cbn; tauto | clear E]
         end.
  reflexivity.
Qed.

Lemma process_token_keyword (tok : Token) (s : SentryDataCompiler) :
  token_type tok = "KEYWORD" ->
  process_token tok s =
    match token_value tok with
    | VStr w =>
        if String.eqb (upper w) "AND" then
          execute_bin_op "AND" (fun a b => boolean andb b a) s
        else if String.eqb (upper w) "OR" then
          execute_bin_op "OR" (fun a b => boolean orb b a) s
        else if String.eqb (upper w) "NOT" then
          match rev (stack s) with
          | [] =>
              Return [Lit "ERROR: Stack underflow en NOT"]
                (with_errors
                   (errors s ++ [not_underflow_error (token_line tok)]) s)
          | a :: below =>
              Return (not_action a (VBool (negb (py_bool a))))
                (with_stack (rev below ++ [VBool (negb (py_bool a))]) s)
          end
        else
          Return [Lit "KEYWORD "; Val (VStr (upper w)); Lit " (sin implementar)"]
            s
    | _ => Raise AttributeError s
    end.
Proof.
  intros Ht. unfold process_token. rewrite Ht.
  cbn -[execute_bin_op stack_pop stack_append Nat.ltb bind get].
  unfold bind at 1.
  destruct (token_value tok) as [f | w | b | z]; try reflexivity.
  cbn -[execute_bin_op stack_pop stack_append Nat.ltb bind get String.eqb].
  destruct (String.eqb (upper w) "AND"); [reflexivity |].
  destruct (String.eqb (upper w) "OR"); [reflexivity |].
  destruct (String.eqb (upper w) "NOT"); [| reflexivity].
  unfold bind at 1. unfold get at 1.
  destruct (rev (stack s)) as [| a below] eqn:E.
  - assert (Hs : stack s = []).
    { rewrite <- (rev_involutive (stack s)), E. reflexivity. }
    rewrite Hs. reflexivity.
  - assert (Hs : stack s = rev below ++ [a]).
    { rewrite <- (rev_involutive (stack s)), E. reflexivity. }
    assert (Hlen : (List.length (stack s) <? 1)%nat = false).
    { apply Nat.ltb_ge. rewrite Hs, length_app. cbn [List.length]. lia. }
    rewrite Hlen. unfold bind at 1.
    rewrite (stack_pop_snoc s (rev below) a Hs). reflexivity.
Qed.

(** Every token either is processed, changing the compiler in one of the
    two regular ways, or fails in one of the two ways of [token_failed]. *)
Lemma process_token_effect (tok : Token) (s : SentryDataCompiler) :
  match process_token tok s with
  | Return _ s' => token_processed tok s s'
  | Raise e s' => token_failed tok e s s'
  | OutOfFuel => False
  end.
Proof.
  destruct (in_dec string_dec (token_type tok) evaluated_types) as [Hin | Hout].
  2:{ rewrite (process_token_ignored tok s Hout).
      repeat split. left. split; [reflexivity | lia]. }
  assert (Hbin : forall o, token_type tok = binop_type o ->
    match process_token tok s with
    | Return _ s' => token_processed tok s s'
    | Raise e s' => token_failed tok e s s'
    | OutOfFuel => False
    end).
  { intros o Ht. rewrite (process_token_binop tok o Ht).
    pose proof (execute_bin_op_effect tok (binop_name o)
                  (fun a b => binop_eval o b a) s) as E.
    destruct (execute_bin_op _ _ s) as [act s' | e s' |]; [exact E | | exact E].
    destruct E as (b & a & Hs & Hs' & Hf).
    destruct (binop_eval_error o b a e Hf) as [Hm He].
    left. exists o, b, a. repeat split; assumption. }
  assert (Hpush : pushes tok = true ->
    match process_token tok s with
    | Return _ s' => token_processed tok s s'
    | Raise e s' => token_failed tok e s s'
    | OutOfFuel => False
    end).
  { intros Hp. destruct (process_token_push tok s Hp) as [act ->].
    apply token_processed_push. }
  cbn in Hin.
  destruct Hin as [H | [H | [H | [H | [H | [H | [H | [H | [H | [H | [H |
                  [H | [H | [H | []]]]]]]]]]]]]]]; symmetry in H.
  - apply Hpush. unfold pushes. now rewrite H.
  - apply Hpush. unfold pushes. now rewrite H.
  - apply Hpush. unfold pushes. now rewrite H.
  - apply (Hbin Add H).
  - apply (Hbin Sub H).
  - apply (Hbin Mul H).
  - apply (Hbin Div H).
  - apply (Hbin Eq_ H).
  - apply (Hbin Neq H).
  - apply (Hbin Lt_ H).
  - apply (Hbin Gt_ H).
  - apply (Hbin Lte H).
  - apply (Hbin Gte H).
  - rewrite (process_token_keyword tok s H).
    destruct (token_value tok) as [f | w | b | z] eqn:Hv;
      try (right; split; [exact H | split; [reflexivity | split;
             [reflexivity | intros w0; rewrite Hv; discriminate]]]).
    assert (Hlogic : forall name func,
      (forall x y e, func x y <> Err e) ->
      match execute_bin_op name func s with
      | Return _ s' => token_processed tok s s'
      | Raise e s' => token_failed tok e s s'
      | OutOfFuel => False
      end).
    { intros name func Hf.
      pose proof (execute_bin_op_effect tok name func s) as E.
      destruct (execute_bin_op name func s) as [act s' | e s' |];
        [exact E | | exact E].
      destruct E as (b & a & _ & _ & Hfe). now apply Hf in Hfe. }
    destruct (String.eqb (upper w) "AND"); [apply Hlogic; discriminate |].
    destruct (String.eqb (upper w) "OR"); [apply Hlogic; discriminate |].
    destruct (String.eqb (upper w) "NOT").
    + destruct (rev (stack s)) as [| a below] eqn:E.
      * repeat split. right. eexists.
        split; [reflexivity | split; [now right | reflexivity]].
      * repeat split. left. split; [reflexivity |].
        assert (Hs : stack s = rev below ++ [a]).
        { rewrite <- (rev_involutive (stack s)), E. reflexivity. }
        cbn. rewrite Hs, !length_app. cbn. lia.
    + repeat split. left. split; [reflexivity | lia].
Qed.

(** X11.  When [process_token] raises an exception other than [ValueError]
    (the one exception that rendering the action text can raise, on a very
    long [int]; the rendering is not part of this model), it is in one of two
    ways: an arithmetic or ordering operator ([+ - * / < > <= >=]) found two
    operands, popped both, and Python's operation on them raised
    [TypeError], [ZeroDivisionError] or [OverflowError], nothing else of the
    compiler having changed; or the token is a KEYWORD whose value is not a
    text ([AttributeError], nothing changed). *)
Theorem process_token_failures :
  forall (tok : Token) (s s' : SentryDataCompiler) (e : exn),
    process_token tok s = Raise e s' ->
    e <> ValueError ->
    token_failed tok e s s'.
Proof.
  intros tok s s' e H _. pose proof (process_token_effect tok s) as E.
  now rewrite H in E.
Qed.

Lemma process_token_failures_witness :
  token_failed (mkToken "OP_LT" (VStr "<") 1 4) TypeError
    (mkCompiler [] [] [] [VBool true; VStr "a"; VFloat 1] 1)
    (mkCompiler [] [] [] [VBool true] 1).
Proof.
  apply (process_token_failures (mkToken "OP_LT" (VStr "<") 1 4)
           (mkCompiler [] [] [] [VBool true; VStr "a"; VFloat 1] 1)).
  - vm_compute. reflexivity.
  - discriminate.
Defined.

Lemma last_cons {A} (a d : A) (l : list A) : last (a :: l) d = last l a.
Proof.
  revert a d. induction l as [| b l IH]; intros a d; [reflexivity |].
  change (last (a :: b :: l) d) with (last (b :: l) d).
  now rewrite (IH b d), (IH b a).
Qed.

Lemma run_tokens_log (toks : list Token) :
  forall (index : nat) (log0 log : list LogEntry) (s s' : SentryDataCompiler),
    run_tokens index toks log0 s = Return log s' ->
    exists new,
      log = log0 ++ new
      /\ map token new = toks
      /\ map step new = seq (index + 1) (List.length toks)
      /\ last (map stack_state new) (stack s) = stack s'.
Proof.
  induction toks as [| tok more IH]; intros index log0 log s s' H.
  - injection H as <- <-. exists []. now rewrite app_nil_r.
  - cbn [run_tokens] in H. unfold bind at 1 in H.
    destruct (process_token tok s) as [act s1 | e s1 |];
      [| discriminate | discriminate].
    unfold bind at 1, get at 1 in H.
    destruct (IH _ _ _ _ _ H) as (new & -> & Htok & Hstep & Hlast).
    exists (mkLogEntry (index + 1) tok act (stack s1) :: new).
    rewrite <- app_assoc. cbn [app map List.length seq token step stack_state].
    repeat split.
    + now rewrite Htok.
    + rewrite Hstep. now replace (S index + 1) with (S (index + 1)) by lia.
    + rewrite last_cons. exact Hlast.
Qed.

(** X12.  When the stack machine returns, its log has one record per token,
    in order, numbered from 1, each record holding its token; and the stack
    snapshot of the last record is the final stack. *)
Theorem execution_log_shape :
  forall (toks : list Token) (s s' : SentryDataCompiler)
         (log : list LogEntry),
    execute_stack_machine toks s = Return log s' ->
    map token log = toks
    /\ map step log = seq 1 (List.length toks)
    /\ last (map stack_state log) [] = stack s'.
Proof.
  intros toks s s' log H. unfold execute_stack_machine, bind in H.
  cbn [set_stack modify] in H.
  destruct (run_tokens_log toks 0 [] log (with_stack [] s) s' H)
    as (new & -> & Htok & Hstep & Hlast).
  cbn [app]. repeat split; assumption.
Qed.

Lemma execution_log_shape_witness :
  map step
    [mkLogEntry 1 (mkToken "KEYWORD" (VStr "DUP") 1 0)
       [Lit "KEYWORD "; Val (VStr "DUP"); Lit " (sin implementar)"] [];
     mkLogEntry 2 (mkToken "OP_ADD" (VStr "+") 1 4) (failed_action "+") []]
  = seq 1 (List.length [mkToken "KEYWORD" (VStr "DUP") 1 0;
                        mkToken "OP_ADD" (VStr "+") 1 4]).
Proof.
  apply (execution_log_shape
           [mkToken "KEYWORD" (VStr "DUP") 1 0; mkToken "OP_ADD" (VStr "+") 1 4]
           init
           (mkCompiler [] [] [underflow_error 1 "+"] [] 1)).
  vm_compute. reflexivity.
Defined.

Lemma run_tokens_effect (toks : list Token) :
  forall (index : nat) (log0 : list LogEntry) (s : SentryDataCompiler),
    match run_tokens index toks log0 s with
    | OutOfFuel => False
    | o =>
        forall s', final_state o = Some s' ->
        tokens s' = tokens s /\ symbol_table s' = symbol_table s
        /\ current_line s' = current_line s
        /\ exists new_errors,
             errors s' = errors s ++ new_errors
             /\ Forall (fun e => exists tok,
                            In tok toks
                            /\ execution_error (current_line s) tok e)
                  new_errors
             /\ List.length (stack s') + List.length new_errors
                <= List.length (stack s) + List.length toks
    end.
Proof.
  assert (Base : forall s : SentryDataCompiler, forall ts : list Token,
    tokens s = tokens s /\ symbol_table s = symbol_table s
    /\ current_line s = current_line s
    /\ exists new_errors,
         errors s = errors s ++ new_errors
         /\ Forall (fun e => exists tok,
                        In tok ts /\ execution_error (current_line s) tok e)
              new_errors
         /\ List.length (stack s) + List.length new_errors
            <= List.length (stack s) + List.length ts).
  { intros s ts. repeat split. exists []. rewrite app_nil_r.
    repeat split; [constructor | cbn; lia]. }
  induction toks as [| tok more IH]; intros index log0 s.
  - cbn [run_tokens ret final_state]. intros s' [= <-]. exact (Base s []).
  - cbn [run_tokens]. unfold bind at 1.
    pose proof (process_token_effect tok s) as E.
    destruct (process_token tok s) as [act s1 | e s1 |]; [| | exact E].
    + unfold bind at 1, get at 1.
      specialize (IH (S index)
                    (log0 ++ [mkLogEntry (index + 1) tok act (stack s1)]) s1).
      destruct E as (Et & Ey & Ec & Ecase).
      assert (Join : forall s',
        (tokens s' = tokens s1 /\ symbol_table s' = symbol_table s1
         /\ current_line s' = current_line s1
         /\ exists new_errors,
              errors s' = errors s1 ++ new_errors
              /\ Forall (fun e => exists tok0,
                             In tok0 more
                             /\ execution_error (current_line s1) tok0 e)
                   new_errors
              /\ List.length (stack s') + List.length new_errors
                 <= List.length (stack s1) + List.length more) ->
        tokens s' = tokens s /\ symbol_table s' = symbol_table s
        /\ current_line s' = current_line s
        /\ exists new_errors,
             errors s' = errors s ++ new_errors
             /\ Forall (fun e => exists tok0,
                            In tok0 (tok :: more)
                            /\ execution_error (current_line s) tok0 e)
                  new_errors
             /\ List.length (stack s') + List.length new_errors
                <= List.length (stack s) + List.length (tok :: more)).
      { intros s' (Ht & Hy & Hc & ne & He & Hne & Hlen).
        repeat split; try congruence.
        assert (Hne' : Forall (fun e => exists tok0,
                          In tok0 (tok :: more)
                          /\ execution_error (current_line s) tok0 e) ne).
        { eapply Forall_impl; [| exact Hne]. intros e (t0 & Hin & Hex).
          exists t0. split; [now right | now rewrite <- Ec]. }
        destruct Ecase as [[Ee El] | (e & Ee & Eex & Es)].
        - exists ne. rewrite <- Ee. repeat split; [exact He | exact Hne' |].
          cbn [List.length]. lia.
        - exists (e :: ne). rewrite He, Ee, <- app_assoc.
          repeat split.
          + constructor; [| exact Hne']. exists tok. split; [now left | exact Eex].
          + rewrite Es in Hlen. cbn [List.length]. lia. }
      destruct (run_tokens _ more _ s1) as [log s' | e s' |];
        [| | exact IH]; intros s2 H2; apply Join, IH, H2.
    + cbn [final_state]. intros s' [= <-].
      destruct E as [(o & b & a & _ & _ & Hs & Hs' & _) | (_ & _ & -> & _)];
        [| exact (Base s (tok :: more))].
      rewrite Hs'. cbn. repeat split. exists []. rewrite app_nil_r.
      repeat split; [constructor |].
      rewrite Hs, length_app. cbn. lia.
Qed.

(** X13.  However a run of the stack machine ends, it leaves the token
    list, the symbol table and [current_line] as they were, and removes no
    error: the errors after the run are the errors before it followed by new
    ones, each the underflow of a binary operator stamped with
    [current_line] or the underflow of NOT stamped with the line of one of
    the tokens run.  The depth of the final stack plus the number of new
    errors is at most the number of tokens. *)
Theorem execution_effect :
  forall (toks : list Token) (s s' : SentryDataCompiler),
    final_state (execute_stack_machine toks s) = Some s' ->
    tokens s' = tokens s /\ symbol_table s' = symbol_table s
    /\ current_line s' = current_line s
    /\ exists new_errors,
         errors s' = errors s ++ new_errors
         /\ Forall (fun e => exists tok,
                        In tok toks
                        /\ execution_error (current_line s) tok e)
              new_errors
         /\ List.length (stack s') + List.length new_errors
            <= List.length toks.
Proof.
  intros toks s s' H. unfold execute_stack_machine, bind in H.
  cbn [set_stack modify] in H.
  pose proof (run_tokens_effect toks 0 [] (with_stack [] s)) as E.
  destruct (run_tokens 0 toks [] (with_stack [] s)) as [log s1 | e s1 |];
    [| | discriminate]; exact (E s' H).
Qed.

Lemma execution_effect_witness :
  tokens (mkCompiler [] [] [underflow_error 4 "*"] [] 4)
  = tokens (mkCompiler [] [] [] [VFloat 9] 4)
  /\ symbol_table (mkCompiler [] [] [underflow_error 4 "*"] [] 4)
     = symbol_table (mkCompiler [] [] [] [VFloat 9] 4)
  /\ current_line (mkCompiler [] [] [underflow_error 4 "*"] [] 4)
     = current_line (mkCompiler [] [] [] [VFloat 9] 4)
  /\ exists new_errors,
       errors (mkCompiler [] [] [underflow_error 4 "*"] [] 4)
       = errors (mkCompiler [] [] [] [VFloat 9] 4) ++ new_errors
       /\ Forall (fun e => exists tok,
                      In tok [mkToken "OP_MUL" (VStr "*") 2 0]
                      /\ execution_error
                           (current_line (mkCompiler [] [] [] [VFloat 9] 4))
                           tok e)
            new_errors
       /\ List.length (stack (mkCompiler [] [] [underflow_error 4 "*"] [] 4))
          + List.length new_errors
          <= List.length [mkToken "OP_MUL" (VStr "*") 2 0].
Proof.
  apply (execution_effect [mkToken "OP_MUL" (VStr "*") 2 0]
           (mkCompiler [] [] [] [VFloat 9] 4)).
  vm_compute. reflexivity.
Defined.

Lemma run_tokens_pushes (toks : list Token) :
  forall (index : nat) (log0 : list LogEntry) (s : SentryDataCompiler),
    forallb pushes toks = true ->
    exists log,
      run_tokens index toks log0 s =
        Return log (with_stack (stack s ++ map token_value toks) s).
Proof.
  induction toks as [| tok more IH]; intros index log0 s H.
  - exists log0. cbn. rewrite app_nil_r. now destruct s.
  - cbn [forallb] in H. apply andb_true_iff in H as [Hp Hmore].
    destruct (process_token_push tok s Hp) as [act Hact].
    cbn [run_tokens]. unfold bind at 1. rewrite Hact.
    unfold bind at 1, get at 1.
    destruct (IH (S index)
                (log0 ++ [mkLogEntry (index + 1) tok act
                            (stack (with_stack (stack s ++ [token_value tok]) s))])
                (with_stack (stack s ++ [token_value tok]) s) Hmore)
      as [log Hlog].
    exists log. rewrite Hlog. cbn [map]. unfold with_stack. cbn.
    now rewrite <- app_assoc.
Qed.

(** X14.  A program made only of NUMBER, STRING and IDENTIFIER tokens runs
    to the end and leaves on the stack the values of its tokens, in order,
    first token at the bottom; it changes nothing else: an identifier is
    pushed as its name, never looked up. *)
Theorem literals_are_pushed :
  forall (toks : list Token) (s : SentryDataCompiler),
    forallb pushes toks = true ->
    exists log,
      execute_stack_machine toks s =
        Return log (with_stack (map token_value toks) s).
Proof.
  intros toks s H. unfold execute_stack_machine, bind.
  cbn [set_stack modify].
  destruct (run_tokens_pushes toks 0 [] (with_stack [] s) H) as [log Hlog].
  exists log. rewrite Hlog. reflexivity.
Qed.

Lemma literals_are_pushed_witness :
  exists log,
    execute_stack_machine
      [mkToken "IDENTIFIER" (VStr "nombre") 1 0;
       mkToken "STRING" (VStr "Juan") 1 7]
      (mkCompiler [] [] [] [VFloat 1] 1) =
      Return log
        (with_stack
           (map token_value
              [mkToken "IDENTIFIER" (VStr "nombre") 1 0;
               mkToken "STRING" (VStr "Juan") 1 7])
           (mkCompiler [] [] [] [VFloat 1] 1)).
Proof.
  apply (literals_are_pushed
           [mkToken "IDENTIFIER" (VStr "nombre") 1 0;
            mkToken "STRING" (VStr "Juan") 1 7]
           (mkCompiler [] [] [] [VFloat 1] 1)).
  reflexivity.
Defined.

(** X15.  Tokens that do nothing: a KEYWORD whose uppercased text is not
    AND, OR or NOT (IF, THEN, ELSE, ENDIF, DUP, DROP, SWAP, PRINT and the
    like) is reported as not implemented, and a token whose type has no
    branch in [process_token] is reported as ignored; either way the
    compiler is left exactly as it was. *)
Theorem other_tokens_do_nothing :
  (forall (tok : Token) (w : string) (s : SentryDataCompiler),
      token_type tok = "KEYWORD" ->
      token_value tok = VStr w ->
      ~ In (upper w) ["AND"; "OR"; "NOT"] ->
      process_token tok s =
        Return [Lit "KEYWORD "; Val (VStr (upper w)); Lit " (sin implementar)"]
          s)
  /\ (forall (tok : Token) (s : SentryDataCompiler),
        ~ In (token_type tok) evaluated_types ->
        process_token tok s =
          Return [Lit "IGNORADO "; Val (VStr (token_type tok))] s).
Proof.
  split; [| exact process_token_ignored].
  intros tok w s Ht Hv Hw.
  rewrite (process_token_keyword tok s Ht), Hv.
  destruct (String.eqb_spec (upper w) "AND") as [E | _];
    [exfalso; apply Hw; rewrite E; cbn; tauto |].
  destruct (String.eqb_spec (upper w) "OR") as [E | _];
    [exfalso; apply Hw; rewrite E; cbn; tauto |].
  destruct (String.eqb_spec (upper w) "NOT") as [E | _];
    [exfalso; apply Hw; rewrite E; cbn; tauto |].
  reflexivity.
Qed.

Lemma other_tokens_do_nothing_witness :
  process_token (mkToken "KEYWORD" (VStr "EndIf") 1 0)
    (mkCompiler [] [] [] [VFloat 1] 1) =
    Return [Lit "KEYWORD "; Val (VStr (upper "EndIf")); Lit " (sin implementar)"]
      (mkCompiler [] [] [] [VFloat 1] 1).
Proof.
  apply (proj1 other_tokens_do_nothing (mkToken "KEYWORD" (VStr "EndIf") 1 0)
           "EndIf" (mkCompiler [] [] [] [VFloat 1] 1) eq_refl eq_refl).
  cbn. intros [H | [H | [H | []]]]; discriminate.
Defined.

(** X16.  NOT met with an empty stack leaves the stack empty, appends one
    EJECUCIÓN error stamped with the line of the NOT token itself, returns
    the ERROR action, and the loop goes on with the next token. *)
Theorem not_on_empty_stack :
  forall (tok : Token) (s : SentryDataCompiler),
    token_type tok = "KEYWORD" ->
    value_upper (token_value tok) = Ok "NOT" ->
    stack s = [] ->
    process_token tok s =
      Return [Lit "ERROR: Stack underflow en NOT"]
        (with_errors (errors s ++ [not_underflow_error (token_line tok)]) s)
    /\ forall index more log,
         run_tokens index (tok :: more) log s =
           run_tokens (S index) more
             (log ++ [mkLogEntry (index + 1) tok
                        [Lit "ERROR: Stack underflow en NOT"] []])
             (with_errors
                (errors s ++ [not_underflow_error (token_line tok)]) s).
Proof.
  intros tok s Ht Hv Hs.
  assert (Hp : process_token tok s =
      Return [Lit "ERROR: Stack underflow en NOT"]
        (with_errors (errors s ++ [not_underflow_error (token_line tok)]) s)).
  { rewrite (process_token_keyword tok s Ht).
    destruct (token_value tok) as [f | w | b | z]; try discriminate.
    cbn in Hv. injection Hv as Hv. rewrite Hv, Hs. reflexivity. }
  split; [exact Hp |].
  intros index more log.
  rewrite (run_tokens_cons index tok more log s _ _ Hp). cbn [stack with_errors].
  now rewrite Hs.
Qed.

Lemma not_on_empty_stack_witness :
  process_token (mkToken "KEYWORD" (VStr "NOT") 3 0)
    (mkCompiler [] [] [] [] 5) =
    Return [Lit "ERROR: Stack underflow en NOT"]
      (mkCompiler [] [] [not_underflow_error 3] [] 5).
Proof.
  apply (not_on_empty_stack (mkToken "KEYWORD" (VStr "NOT") 3 0)
           (mkCompiler [] [] [] [] 5) eq_refl eq_refl eq_refl).
Defined.

(* ================================================================= *)
(** ** The lexer and the evaluator together *)

Lemma keyword_shape_is_text (tok : Token) :
  token_shape tok -> token_type tok = "KEYWORD" ->
  exists w, token_value tok = VStr w.
Proof.
  intros [(Ht & _) | [(Ht & _) | [(Ht & _) | [(_ & kw & Hv & _) |
          (text & Hv & _)]]]] Hk;
    try (rewrite Hk in Ht; discriminate); eauto.
Qed.

Lemma run_tokens_raise (toks : list Token) :
  forall (index : nat) (log0 : list LogEntry) (s : SentryDataCompiler),
    Forall token_shape toks ->
    match run_tokens index toks log0 s with
    | Return _ _ => True
    | Raise e _ => operand_error e
    | OutOfFuel => False
    end.
Proof.
  induction toks as [| tok more IH]; intros index log0 s H; [exact I |].
  inversion H as [| ? ? Hshape Hmore]; subst.
  cbn [run_tokens]. unfold bind at 1.
  pose proof (process_token_effect tok s) as E.
  destruct (process_token tok s) as [act s1 | e s1 |]; [| | exact E].
  - unfold bind at 1, get at 1. apply IH, Hmore.
  - destruct E as [(o & b & a & _ & _ & _ & _ & _ & He) | (Hk & _ & _ & Hv)];
      [exact He |].
    destruct (keyword_shape_is_text tok Hshape Hk) as [w Hw].
    now apply Hv in Hw.
Qed.

Lemma token_shape_evaluated (t : Token) :
  token_shape t -> In (token_type t) evaluated_types.
Proof.
  intros [(Ht & _) | [(Ht & _) | [(Ht & _) | [(Ht & _) | (text & _ & Hop)]]]];
    try (rewrite Ht; cbn; tauto).
  revert Hop. unfold operators. cbn [dict_get].
  repeat (destruct (String.eqb text _);
          [intros [= <-]; cbn; tauto |]).
  discriminate.
Qed.

(** X17.  The tokens of the lexer fit the evaluator: every token returned by
    lexical analysis has a type [process_token] has a branch for (none is
    ignored), and running them never raises [AttributeError], since a
    KEYWORD token of the lexer always carries a text. *)
Theorem lexer_tokens_fit_evaluator :
  forall (src : string) (s0 s1 : SentryDataCompiler) (toks : list Token),
    lexical_analysis src s0 = Return toks s1 ->
    Forall (fun t => In (token_type t) evaluated_types) toks
    /\ forall (s s' : SentryDataCompiler) (e : exn),
         execute_stack_machine toks s = Raise e s' -> e <> AttributeError.
Proof.
  intros src s0 s1 toks H.
  pose proof (lexical_analysis_effect src s0) as E. rewrite H in E.
  destruct E as (-> & nt & ne & Ht & _ & _ & _ & Hnt & _ & _).
  cbn in Ht.
  assert (Hshape : Forall token_shape (tokens s1)).
  { rewrite Ht. eapply Forall_impl; [| exact Hnt]. cbn. tauto. }
  split.
  - eapply Forall_impl; [| exact Hshape]. exact token_shape_evaluated.
  - intros s s' e Hrun.
    unfold execute_stack_machine, bind in Hrun. cbn [set_stack modify] in Hrun.
    pose proof (run_tokens_raise (tokens s1) 0 [] (with_stack [] s) Hshape)
      as R.
    rewrite Hrun in R. destruct R as [-> | [-> | ->]]; discriminate.
Qed.

Lemma lexer_tokens_fit_evaluator_witness :
  Forall (fun t => In (token_type t) evaluated_types)
    [mkToken "KEYWORD" (VStr "NOT") 1 0; mkToken "OP_NEQ" (VStr "!=") 1 4]
  /\ forall (s s' : SentryDataCompiler) (e : exn),
       execute_stack_machine
         [mkToken "KEYWORD" (VStr "NOT") 1 0; mkToken "OP_NEQ" (VStr "!=") 1 4]
         s = Raise e s' -> e <> AttributeError.
Proof.
  apply (lexer_tokens_fit_evaluator "not !=" init
           (mkCompiler
              [mkToken "KEYWORD" (VStr "NOT") 1 0;
               mkToken "OP_NEQ" (VStr "!=") 1 4] [] [] [] 1)).
  vm_compute. reflexivity.
Defined.



(** X19.  The symbol table is never written: however lexing a text and
    running its tokens on a fresh compiler ends, [get_symbol_table] then
    returns the empty list. *)
Theorem symbol_table_stays_empty :
  forall (src : string) (s : SentryDataCompiler),
    final_state (run src) = Some s ->
    get_symbol_table s = Return [] s.
Proof.
  intros src s H.
  assert (Hrun : run src =
    match lexical_analysis src init with
    | Return toks s1 => run_tokens 0 toks [] (with_stack [] s1)
    | Raise e s1 => Raise e s1
    | OutOfFuel => OutOfFuel
    end) by reflexivity.
  rewrite Hrun in H. clear Hrun.
  assert (Hy : symbol_table s = []).
  { pose proof (lexical_analysis_effect src init) as E.
    destruct (lexical_analysis src init) as [toks s1 | e s1 |];
      [| | discriminate].
    - destruct E as (_ & nt & ne & _ & _ & _ & Hy1 & _).
      pose proof (run_tokens_effect toks 0 [] (with_stack [] s1)) as R.
      destruct (run_tokens 0 toks [] (with_stack [] s1)) as [log s2 | e s2 |];
        [| | discriminate];
        destruct (R s H) as (_ & Hy2 & _); rewrite Hy2; exact Hy1.
    - cbn in H. injection H as <-.
      destruct E as (_ & nt & ne & _ & _ & _ & Hy1 & _). exact Hy1. }
  unfold get_symbol_table, bind, get, ret. now rewrite Hy.
Qed.

Lemma symbol_table_stays_empty_witness :
  get_symbol_table
    (mkCompiler [mkToken "IDENTIFIER" (VStr "x") 1 0] [] [] [VStr "x"] 1)
  = Return []
      (mkCompiler [mkToken "IDENTIFIER" (VStr "x") 1 0] [] [] [VStr "x"] 1).
Proof.
  apply (symbol_table_stays_empty "x"). vm_compute. reflexivity.
Defined.
